(** * Block-range streaming and aggregation engine (eos-blockchain-data)

    A shallow embedding of the Python sources

    - [src/main.py]                                  (module [MainPy])
    - [src/pyfirehose/block_extractors/common.py]    (module [Common])
    - [src/pyfirehose/__main__.py]                   (module [Pyfirehose])

    Python integers are unbounded, so they are modelled by [Z]; [//] is
    floor division and raises [ZeroDivisionError] on a zero divisor.
    Dictionaries used as keyword-argument maps are [gmap string _].
    Exceptions are values of [exn]; a computation that may raise returns a
    [result]; a computation that also performs observable effects (token
    query, channel, streams, output file, the log lines the properties
    speak about) returns an [io], a trace of [event]s paired with a
    [result].  Informational and debug log lines are not traced. *)

From Stdlib Require Import ZArith Lia List Ascii String.
From stdpp Require Import base option list gmap strings pretty.

Local Open Scope Z_scope.

(** ** Python-level notions shared by the three modules *)

Module Py.

(** The exceptions the modelled code raises or lets through. *)
Inductive exn : Type :=
| ZeroDivisionError
| SystemExit (code : Z)
| ValueError (msg : string)
| TypeError (msg : string)
| AttributeError (msg : string)
| AioRpcError (details : string)
| BlockStreamException (start end_ failed_block_number : Z)
| OtherError (msg : string).

Inductive result (A : Type) : Type :=
| Return (a : A)
| Raise (e : exn).
Arguments Return {A} a.
Arguments Raise {A} e.

Definition bind {A B} (m : result A) (k : A -> result B) : result B :=
  match m with
  | Return a => k a
  | Raise e => Raise e
  end.

(** [except Exception] does not catch [SystemExit] (a [BaseException]). *)
Definition is_Exception (e : exn) : bool :=
  match e with
  | SystemExit _ => false
  | _ => true
  end.

(** Exit status of the interpreter for a script that ended with [r]. *)
Definition exit_status {A} (r : result A) : Z :=
  match r with
  | Return _ => 0
  | Raise (SystemExit c) => c
  | Raise _ => 1
  end.

(** [a // b] *)
Definition floordiv (a b : Z) : result Z :=
  if b =? 0 then Raise ZeroDivisionError else Return (a / b).

(** [range(n)] *)
Definition range (n : Z) : list Z :=
  Z.of_nat <$> seq 0 (Z.to_nat n).

(** Truth value of an optional string ([None] and [''] are falsy). *)
Definition truthy (s : option string) : bool :=
  match s with
  | Some (String _ _) => true
  | _ => false
  end.

(** [s.rsplit('.', 1)] unpacked into two names: [None] when [s] holds no
    dot (the unpacking then raises [ValueError]). *)
Fixpoint rsplit_dot (s : string) : option (string * string) :=
  match s with
  | EmptyString => None
  | String c rest =>
      match rsplit_dot rest with
      | Some (l, r) => Some (String c l, r)
      | None => if Ascii.eqb c "."%char then Some (EmptyString, rest) else None
      end
  end.

End Py.
Export Py.

(** ** Observable effects

    The workers of one run are independent of each other: each one is a
    function of its sub-range and of what the server answers to its
    request.  The interleaving of concurrent workers is therefore not
    traced; the streams are listed in the order the tasks are created. *)

Inductive log_line : Type :=
| LogAuthFailed          (* error: 'Could not load JWT token: ...' *)
| LogInvalidPeriod       (* error: 'Period start must be less than or equal to period end' *)
| LogSignatureUnchecked  (* warning: 'Could not check block processing function signature ...' *)
| LogLoadFailed          (* critical: 'Could not load block processing function: ...' *)
| LogBlockFailed (n : Z) (* error: 'Failed to process block number #n: ...' *).

Inductive event (Blob : Type) : Type :=
| EvAuthRequest                  (* the token query to the authentication endpoint *)
| EvChannelOpen                  (* grpc.aio.secure_channel(...) *)
| EvStreamOpen (start end_ : Z)  (* stub.Blocks(request) of the worker over [start, end_) *)
| EvFileWrite (filename : string) (rows : list Blob)
                                 (* the rows dumped, one per line, into filename *)
| EvUsageError (msg : string)    (* arg_parser.error(msg): usage and msg on stderr *)
| EvLog (l : log_line).
Arguments EvAuthRequest {Blob}.
Arguments EvChannelOpen {Blob}.
Arguments EvStreamOpen {Blob} start end_.
Arguments EvFileWrite {Blob} filename rows.
Arguments EvUsageError {Blob} msg.
Arguments EvLog {Blob} l.

Definition is_network {Blob} (ev : event Blob) : bool :=
  match ev with
  | EvAuthRequest | EvChannelOpen | EvStreamOpen _ _ => true
  | _ => false
  end.

Definition is_connection {Blob} (ev : event Blob) : bool :=
  match ev with
  | EvChannelOpen | EvStreamOpen _ _ => true
  | _ => false
  end.

Definition is_file_write {Blob} (ev : event Blob) : bool :=
  match ev with
  | EvFileWrite _ _ => true
  | _ => false
  end.

(** A trace of effects together with how the computation ended. *)
Definition io (Blob A : Type) : Type := list (event Blob) * result A.

Definition io_ret {Blob A} (a : A) : io Blob A := ([], Return a).
Definition io_raise {Blob A} (e : exn) : io Blob A := ([], Raise e).
Definition emit {Blob} (ev : event Blob) : io Blob unit := ([ev], Return tt).
Definition lift {Blob A} (r : result A) : io Blob A := ([], r).

Definition io_bind {Blob A B} (m : io Blob A) (k : A -> io Blob B) : io Blob B :=
  match m with
  | (t, Return a) => let '(t', r) := k a in (t ++ t', r)
  | (t, Raise e) => (t, Raise e)
  end.

Declare Scope io_scope.
Delimit Scope io_scope with io.
Notation "x <- m ;; k" := (io_bind m (fun x => k))
  (at level 100, m at next level, right associativity) : io_scope.
Notation "m ;; k" := (io_bind m (fun _ => k))
  (at level 100, right associativity) : io_scope.

Definition trace {Blob A} (m : io Blob A) : list (event Blob) := fst m.
Definition outcome {Blob A} (m : io Blob A) : result A := snd m.

(** ** Streams and block processors *)

(** One step of the response iterator of [stub.Blocks(request)]: the next
    response, or the remote call failing with [grpc.aio.AioRpcError].  The
    iterator ends ([StopAsyncIteration]) when the list is exhausted. *)
Inductive stream_item (Block : Type) : Type :=
| Response (block : Block)
| RpcFailure (details : string).
Arguments Response {Block} block.
Arguments RpcFailure {Block} details.

(** What iterating [block_processor(b)] does: the blobs it yields, in
    order, and the exception it raises after them, if any. *)
Definition generated (Blob : Type) : Type := list Blob * option exn.

(** ** Signature check of a loaded block processor
    (the same code in [src/main.py] 212-222 and
    [src/pyfirehose/__main__.py] 106-123) *)

Module Signature.

Inductive annotation : Type :=
| Unannotated              (* inspect.Signature.empty, inspect.Parameter.empty *)
| BlockType                (* codec_pb2.Block *)
| DictType                 (* typing.Dict *)
| OtherType (name : string).

Definition annotation_eqb (a b : annotation) : bool :=
  match a, b with
  | Unannotated, Unannotated => true
  | BlockType, BlockType => true
  | DictType, DictType => true
  | OtherType x, OtherType y => String.eqb x y
  | _, _ => false
  end.

(** [inspect.signature(block_processor)]: one annotation per parameter,
    in order, and the return annotation. *)
Record signature : Type := {
  parameters : list annotation;
  return_annotation : annotation
}.

(** The object found by [getattr(importlib.import_module(module), function)]. *)
Record candidate (Block Blob : Type) : Type := {
  signature_of : signature;
  isgeneratorfunction : bool;
  call : Block -> generated Blob
}.
Arguments signature_of {Block Blob} c.
Arguments isgeneratorfunction {Block Blob} c.
Arguments call {Block Blob} c.

Definition is_nil {A} (l : list A) : bool :=
  match l with
  | [] => true
  | _ => false
  end.

(** Condition of the [if]: the warning branch. *)
Definition not_checkable (sg : signature) : bool :=
  let parameters_annotations := parameters sg in
  annotation_eqb (return_annotation sg) Unannotated
  || (is_nil parameters_annotations && negb (is_nil (parameters sg)))
  || existsb (fun t => annotation_eqb t Unannotated) parameters_annotations.

(** Condition of the [elif]: the [TypeError] branch. *)
Definition incompatible {Block Blob} (c : candidate Block Blob) : bool :=
  let sg := signature_of c in
  negb (existsb (annotation_eqb BlockType) (parameters sg))
  || negb (annotation_eqb (return_annotation sg) DictType)
  || negb (isgeneratorfunction c).

Definition incompatible_msg : string :=
  "Incompatible block processing function signature".

Definition check {Block Blob} (c : candidate Block Blob) : io Blob unit :=
  if not_checkable (signature_of c) then emit (EvLog LogSignatureUnchecked)
  else if incompatible c then io_raise (TypeError incompatible_msg)
  else io_ret tt.

(** The wording of the specification. *)
Definition partially_annotated (sg : signature) : Prop :=
  return_annotation sg = Unannotated \/ In Unannotated (parameters sg).

Definition fully_annotated_incompatible {Block Blob} (c : candidate Block Blob) : Prop :=
  ~ partially_annotated (signature_of c) /\
  (~ In BlockType (parameters (signature_of c))
   \/ return_annotation (signature_of c) <> DictType
   \/ isgeneratorfunction c = false).

End Signature.

(** ** [src/main.py] *)

Module MainPy.

Record BlocksRequestV2 : Type := {
  start_block_num : Z;
  stop_block_num : Z;
  fork_steps : list string;
  include_filter_expr : string;
  exclude_filter_expr : string
}.

(** The double-quote character of the filter expressions. *)
Definition dq : string := String (ascii_of_nat 34) EmptyString.

(** [str] of a list of account names (names without quotes or escapes). *)
Definition repr_accounts (accounts : list string) : string :=
  "[" +:+ String.concat ", " (map (fun a => "'" +:+ a +:+ "'") accounts) +:+ "]".

Definition default_include (accounts : list string) : string :=
  "receiver in " +:+ repr_accounts accounts +:+ " && action == " +:+ dq +:+ "transfer" +:+ dq.

Definition default_exclude : string :=
  "action == " +:+ dq +:+ "*" +:+ dq.

Definition or_default (custom : option string) (default : string) : string :=
  match custom with
  | Some s => if truthy custom then s else default
  | None => default
  end.

(** Lines 85-91: the request of the worker over [[start, end_)]. *)
Definition request (accounts : list string)
    (custom_include_expr custom_exclude_expr : option string)
    (start end_ : Z) : BlocksRequestV2 :=
  {| start_block_num := start;
     stop_block_num := end_;
     fork_steps := ["STEP_IRREVERSIBLE"%string];
     include_filter_expr := or_default custom_include_expr (default_include accounts);
     exclude_filter_expr := or_default custom_exclude_expr default_exclude |}.

(** *** The range splitter (lines 124-143) *)

(** Line 125. *)
Definition clamp_tasks (block_diff max_tasks : Z) : Z :=
  if block_diff <? max_tasks then block_diff else max_tasks.

(** Lines 139-140: the arguments of the [i]-th [stream_blocks] task. *)
Definition task_bounds (period_start period_end max_tasks split i : Z) : Z * Z :=
  (period_start + i * split,
   if i <? max_tasks - 1 then period_start + (i + 1) * split else period_end).

(** The sub-ranges handed to the worker tasks, or the exception of line 126. *)
Definition task_ranges (period_start period_end max_tasks : Z) : result (list (Z * Z)) :=
  let block_diff := period_end - period_start in
  let max_tasks := clamp_tasks block_diff max_tasks in
  bind (floordiv block_diff max_tasks) (fun split =>
  Return (task_bounds period_start period_end max_tasks split <$> range max_tasks)).

Section Run.
Context {Block Blob : Type}.

(** What the outside world answers: the status of the token request
    and, for each streaming request, the responses of the server. *)
Record environment : Type := {
  status_code : Z;
  Blocks : BlocksRequestV2 -> list (stream_item Block)
}.

Variable env : environment.

(** The [async for] loop of the nested [stream_blocks] (lines 85-97);
    nothing is caught, so a failure of the remote call or of the block
    processor leaves the worker as it is.  A response stands for the
    block unpacked from it (lines 92-93), the value handed to the block
    processor. *)
Fixpoint consume (block_processor : Block -> generated Blob)
    (responses : list (stream_item Block)) (transactions : list Blob)
    : result (list Blob) :=
  match responses with
  | [] => Return transactions
  | RpcFailure d :: _ => Raise (AioRpcError d)
  | Response b :: rest =>
      match block_processor b with
      | (blobs, Some e) => Raise e
      | (blobs, None) => consume block_processor rest (transactions ++ blobs)
      end
  end.

Definition stream_blocks (accounts : list string)
    (block_processor : Block -> generated Blob)
    (custom_include_expr custom_exclude_expr : option string)
    (start end_ : Z) : result (list Blob) :=
  let transactions := [] in
  consume block_processor
    (Blocks env (request accounts custom_include_expr custom_exclude_expr start end_))
    transactions.

(** Lines 135-143: one task per sub-range, created in index order. *)
Fixpoint create_tasks (worker : Z -> Z -> result (list Blob)) (ranges : list (Z * Z))
    : io Blob (list (result (list Blob))) :=
  match ranges with
  | [] => io_ret []
  | (start, end_) :: rest =>
      (emit (EvStreamOpen start end_);;
       tasks <- create_tasks worker rest;;
       io_ret (worker start end_ :: tasks))%io
  end.

(** Lines 145-147: [for t in tasks: data += await t], over the results
    of the tasks.  A task that ends the interpreter ([SystemExit] leaves
    the event loop as soon as it is raised) is outside what this fold
    describes. *)
Fixpoint gather (tasks : list (result (list Blob))) (data : list Blob)
    : result (list Blob) :=
  match tasks with
  | [] => Return data
  | Return rows :: rest => gather rest (data ++ rows)
  | Raise e :: _ => Raise e
  end.

Definition filename (chain : string) (accounts : list string)
    (period_start period_end : Z) : string :=
  "jsonl/" +:+ chain +:+ "_" +:+ String.concat "_" accounts +:+ "_"
  +:+ pretty period_start +:+ "_to_" +:+ pretty period_end +:+ ".jsonl".

(** [run], called from the script.  The writing of lines 149-153 is
    traced as one event holding the rows dumped; a failure of [open] or
    of [json.dump] is not modelled, nor are the assignments to
    [console_handler] of lines 129 and 155. *)
Definition run (accounts : list string) (period_start period_end : Z)
    (block_processor : Block -> generated Blob) (chain : string) (max_tasks : Z)
    (custom_include_expr custom_exclude_expr : option string) : io Blob unit :=
  (emit EvAuthRequest;;
   (if status_code env =? 200 then io_ret tt
    else (emit (EvLog LogAuthFailed);; io_raise (SystemExit 1)));;
   let block_diff := period_end - period_start in
   let max_tasks := clamp_tasks block_diff max_tasks in
   split <- lift (floordiv block_diff max_tasks);;
   emit EvChannelOpen;;
   tasks <- create_tasks
              (stream_blocks accounts block_processor custom_include_expr custom_exclude_expr)
              (task_bounds period_start period_end max_tasks split <$> range max_tasks);;
   data <- lift (gather tasks []);;
   emit (EvFileWrite (filename chain accounts period_start period_end) data))%io.

(** *** The script body ([if __name__ == '__main__']) *)

Record arguments : Type := {
  accounts : list string;
  block_start : Z;
  block_end : Z;
  chain : string;
  max_tasks : Z;
  custom_exclude_expr : option string;
  custom_include_expr : option string;
  custom_processor : option string;
  disable_signature_check : bool
}.

(** [getattr(importlib.import_module(module), function)] *)
Variable load : string -> string -> result (Signature.candidate Block Blob).

(** Lines 204-207. *)
Definition processor_path (args : arguments) : result (string * string) :=
  match custom_processor args with
  | Some s =>
      if truthy (custom_processor args) then
        match rsplit_dot s with
        | Some (module, function) => Return ("block_processors." +:+ module, function)
        | None => Raise (ValueError "not enough values to unpack")
        end
      else Return ("block_processors.default"%string, chain args +:+ "_block_processor")
  | None => Return ("block_processors.default"%string, chain args +:+ "_block_processor")
  end.

(** The body of the [try] (lines 210-222). *)
Definition load_processor (args : arguments) (module function : string)
    : io Blob (Signature.candidate Block Blob) :=
  (block_processor <- lift (load module function);;
   (if disable_signature_check args then io_ret tt
    else Signature.check block_processor);;
   io_ret block_processor)%io.

(** [try ... except Exception as e: logging.critical(...); sys.exit(1)] *)
Definition guarded {A} (body : io Blob A) : io Blob A :=
  match body with
  | (t, Raise e) =>
      if is_Exception e then (t ++ [EvLog LogLoadFailed], Raise (SystemExit 1))
      else (t, Raise e)
  | done => done
  end.

Definition script (args : arguments) : io Blob unit :=
  ((if block_end args <? block_start args
    then (emit (EvUsageError "block_start must be less than or equal to block_end");;
          io_raise (SystemExit 2))
    else io_ret tt);;
   path <- lift (processor_path args);;
   block_processor <- guarded (load_processor args (fst path) (snd path));;
   run (accounts args) (block_start args) (block_end args)
       (Signature.call block_processor) (chain args) (max_tasks args)
       (custom_include_expr args) (custom_exclude_expr args))%io.

End Run.

End MainPy.


(** ** [src/pyfirehose/block_extractors/common.py] *)

Module Common.

(** Values of request parameters and keyword arguments. *)
Inductive pyval : Type :=
| VInt (n : Z)
| VStr (s : string)
| VList (l : list string).

(** Lines 98-103: the dict display
    [{'start_block_num': start, 'stop_block_num': end, **REQUEST_PARAMETERS, **kwargs}];
    a later entry replaces an earlier one with the same key. *)
Definition positional_parameters (start end_ : Z) : gmap string pyval :=
  <["stop_block_num" := VInt end_]> (<["start_block_num" := VInt start]> ∅).

Definition request_parameters (start end_ : Z)
    (REQUEST_PARAMETERS kwargs : gmap string pyval) : gmap string pyval :=
  kwargs ∪ (REQUEST_PARAMETERS ∪ positional_parameters start end_).

(** How an [async for] loop of [stream_blocks] is left, with the values of
    [current_block_number] and [data] at that point. *)
Inductive loop_end (X : Type) : Type :=
| Exhausted (current_block_number : Z) (data : list X)
| Raised (e : exn) (current_block_number : Z) (data : list X).
Arguments Exhausted {X} current_block_number data.
Arguments Raised {X} e current_block_number data.

(** What [stream_blocks] returns: parsed data when a block processor is
    supplied, the raw blocks otherwise. *)
Inductive extracted (Block Blob : Type) : Type :=
| Parsed (data : list Blob)
| RawBlocks (data : list Block).
Arguments Parsed {Block Blob} data.
Arguments RawBlocks {Block Blob} data.

Section Extractor.
Context {Block Blob : Type}.

(** [StubConfig]: the configured request parameters and, through
    [STUB_OBJECT(secure_channel).Blocks(request)], the
    responses of the server to a request. *)
Record StubConfig : Type := {
  REQUEST_PARAMETERS : gmap string pyval;
  Blocks : gmap string pyval -> list (stream_item Block)
}.

Variable stub_config : StubConfig.

(** Lines 58-65. *)
Fixpoint process_blocks_from (data : list Blob) (raw_blocks : list Block)
    (block_processor : Block -> generated Blob) : result (list Blob) :=
  match raw_blocks with
  | [] => Return data
  | raw_block :: rest =>
      match block_processor raw_block with
      | (blobs, Some e) => Raise e
      | (blobs, None) => process_blocks_from (data ++ blobs) rest block_processor
      end
  end.

Definition process_blocks (raw_blocks : list Block)
    (block_processor : Block -> generated Blob) : result (list Blob) :=
  process_blocks_from [] raw_blocks block_processor.

(** Lines 114-124: the loop with a block processor. *)
Fixpoint consume_parsing (block_processor : Block -> generated Blob)
    (responses : list (stream_item Block))
    (current_block_number : Z) (data : list Blob) : loop_end Blob :=
  match responses with
  | [] => Exhausted current_block_number data
  | RpcFailure d :: _ => Raised (AioRpcError d) current_block_number data
  | Response block :: rest =>
      let current_block_number := current_block_number + 1 in
      match block_processor block with
      | (blobs, Some e) => Raised e current_block_number (data ++ blobs)
      | (blobs, None) => consume_parsing block_processor rest current_block_number (data ++ blobs)
      end
  end.

(** Lines 126-134: the loop without one. *)
Fixpoint consume_raw (responses : list (stream_item Block))
    (current_block_number : Z) (data : list Block) : loop_end Block :=
  match responses with
  | [] => Exhausted current_block_number data
  | RpcFailure d :: _ => Raised (AioRpcError d) current_block_number data
  | Response block :: rest =>
      let current_block_number := current_block_number + 1 in
      consume_raw rest current_block_number (data ++ [block])
  end.

(** Lines 135-142: only [grpc.aio.AioRpcError] is caught; [data] is dropped. *)
Definition except_rpc {A} (start end_ : Z) (e : exn) (current_block_number : Z)
    : io Blob A :=
  match e with
  | AioRpcError _ =>
      (emit (EvLog (LogBlockFailed current_block_number));;
       io_raise (BlockStreamException start end_ current_block_number))%io
  | _ => io_raise e
  end.

Definition stream_blocks (start end_ : Z)
    (block_processor : option (Block -> generated Blob))
    (kwargs : gmap string pyval) : io Blob (extracted Block Blob) :=
  let current_block_number := start in
  let request_parameters :=
    request_parameters start end_ (REQUEST_PARAMETERS stub_config) kwargs in
  (emit (EvStreamOpen start end_);;
   match block_processor with
   | Some block_processor =>
       match consume_parsing block_processor (Blocks stub_config request_parameters)
               current_block_number [] with
       | Exhausted _ data => io_ret (Parsed data)
       | Raised e current_block_number _ => except_rpc start end_ e current_block_number
       end
   | None =>
       match consume_raw (Blocks stub_config request_parameters)
               current_block_number [] with
       | Exhausted _ data => io_ret (RawBlocks data)
       | Raised e current_block_number _ => except_rpc start end_ e current_block_number
       end
   end)%io.

End Extractor.

End Common.

(** ** [src/pyfirehose/__main__.py] *)

Module Pyfirehose.

Record arguments : Type := {
  start : Z;
  end_ : Z;
  chain : string;
  out_file : string;
  custom_include_expr : option string;
  custom_exclude_expr : option string;
  custom_processor : option string;
  disable_signature_check : bool
}.

Section Main.
Context {Block Blob : Type}.

(** The collaborators imported from modules outside [src/]:
    - [JWT]: the value of [utils.get_auth_token()], falsy when no token
      could be obtained;
    - [load]: [getattr(importlib.import_module(module), function)];
    - [asyncio_main]: [asyncio.run(asyncio_main(period_start, period_end,
      chain, custom_include_expr, custom_exclude_expr))] of
      [block_extractors.async_single_channel_spawner]. *)
Record environment : Type := {
  JWT : option string;
  load : string -> string -> result (Signature.candidate Block Blob);
  asyncio_main : Z -> Z -> string -> option string -> option string -> io Blob (list Block)
}.

Variable env : environment.

(** Lines 77-80. *)
Definition processor_path (args : arguments) : result (string * string) :=
  match custom_processor args with
  | Some s =>
      if truthy (custom_processor args) then
        match rsplit_dot s with
        | Some (module, function) => Return ("block_processors." +:+ module, function)
        | None => Raise (ValueError "not enough values to unpack")
        end
      else Return ("block_processors.default"%string, chain args +:+ "_block_processor")
  | None => Return ("block_processors.default"%string, chain args +:+ "_block_processor")
  end.

(** The body of the [try] (lines 104-123). *)
Definition load_processor (args : arguments) (module function : string)
    : io Blob (Signature.candidate Block Blob) :=
  (block_processor <- lift (load env module function);;
   (if disable_signature_check args then io_ret tt
    else Signature.check block_processor);;
   io_ret block_processor)%io.

(** [except (AttributeError, TypeError) as exception: logging.critical(...); raise] *)
Definition reraising {A} (body : io Blob A) : io Blob A :=
  match body with
  | (t, Raise (AttributeError m)) => (t ++ [EvLog LogLoadFailed], Raise (AttributeError m))
  | (t, Raise (TypeError m)) => (t ++ [EvLog LogLoadFailed], Raise (TypeError m))
  | other => other
  end.

(** [main()].  The call of line 128 passes [out_file] to
    [Common.process_blocks], which has no such parameter: once its
    arguments are evaluated (the streaming has run) the call raises
    [TypeError]. *)
Definition main (args : arguments) : io Blob Z :=
  if negb (truthy (JWT env)) then io_ret 1
  else if end_ args <? start args then
    (emit (EvLog LogInvalidPeriod);; io_ret 1)%io
  else
    (path <- lift (processor_path args);;
     block_processor <- reraising (load_processor args (fst path) (snd path));;
     raw_blocks <- asyncio_main env (start args) (end_ args) (chain args)
                     (custom_include_expr args) (custom_exclude_expr args);;
     io_raise (TypeError "process_blocks() got an unexpected keyword argument 'out_file'"))%io.

(** Modelled from the spec: [utils.get_auth_token], called on line 45, is
    not among the sources.  Following the authenticator contract of the
    specification (section 6, a token fetched from the authentication
    service, as the [session.post] of [main.py] line 113 does), the call
    is traced as the token query [EvAuthRequest]; the value it yields is
    the parameter [JWT]. *)
Definition get_auth_token : io Blob (option string) :=
  (emit EvAuthRequest;; io_ret (JWT env))%io.

(** The module run as a script: line 45 assigns [JWT] while the module
    body is executed, then [main()] is called and its value dropped. *)
Definition script (args : arguments) : io Blob unit :=
  (get_auth_token;;
   main args;;
   io_ret tt)%io.

End Main.

End Pyfirehose.


(** * Specification predicates

    The wording of the specification, to be compared with the code. *)

(** ** The range splitter *)

(** A block number lies in the half-open sub-range [r]. *)
Definition covers (r : Z * Z) (b : Z) : Prop := fst r <= b < snd r.

Definition contiguous (rs : list (Z * Z)) : Prop :=
  forall (i : nat) r r', rs !! i = Some r -> rs !! S i = Some r' -> snd r = fst r'.

Definition non_overlapping (rs : list (Z * Z)) : Prop :=
  forall (i j : nat) r r' b,
    rs !! i = Some r -> rs !! j = Some r' -> covers r b -> covers r' b -> i = j.

Definition union_is (rs : list (Z * Z)) (lo hi : Z) : Prop :=
  forall b, (exists r, r ∈ rs /\ covers r b) <-> lo <= b < hi.

(** The output the specification asks of the splitter: the list of
    sub-ranges exists, sub-range [i] is [[start + i*chunk, start + (i+1)*chunk)]
    but for the last one, which ends at [period_end], and the sub-ranges
    partition [[period_start, period_end)]. *)
Definition splits_as_specified (period_start period_end max_tasks : Z) : Prop :=
  exists rs,
    MainPy.task_ranges period_start period_end max_tasks = Return rs /\
    let n := MainPy.clamp_tasks (period_end - period_start) max_tasks in
    let chunk := (period_end - period_start) / n in
    Z.of_nat (length rs) = n /\
    (forall i : nat, Z.of_nat i < n ->
       rs !! i = Some (period_start + Z.of_nat i * chunk,
                       if decide (Z.of_nat i = n - 1) then period_end
                       else period_start + (Z.of_nat i + 1) * chunk)) /\
    contiguous rs /\ non_overlapping rs /\ union_is rs period_start period_end.

(** The number of sub-ranges the specification asks for when there are
    more tasks allowed than blocks. *)
Definition splits_into (period_start period_end max_tasks : Z) (count : Z) : Prop :=
  exists rs,
    MainPy.task_ranges period_start period_end max_tasks = Return rs /\
    Z.of_nat (length rs) = count.



(** ** The empty period *)

(** What is said of [run] on an empty period: the clamped task count is
    zero, the chunk computation raises [ZeroDivisionError], and this
    happens after the token request and before any channel, stream or
    output file. *)
Definition empty_period_crashes {Block Blob : Type} (env : @MainPy.environment Block)
    (accounts : list string) (period_start period_end : Z)
    (block_processor : Block -> generated Blob) (chain : string) (max_tasks : Z)
    (custom_include_expr custom_exclude_expr : option string) : Prop :=
  MainPy.clamp_tasks (period_end - period_start) max_tasks = 0 /\
  MainPy.run env accounts period_start period_end block_processor chain max_tasks
    custom_include_expr custom_exclude_expr
  = ([EvAuthRequest], Raise ZeroDivisionError).

(** ** Aggregation *)

(** The run over the sub-ranges [rs], whose workers returned the lists
    [outs], writes the concatenation of these lists in the order of the
    sub-ranges (worker index); the list of a worker holds what the block
    processor yielded for the blocks of its stream, in arrival order, and
    [process_blocks] keeps the same order. *)
Definition aggregates_in_worker_order {Block Blob : Type}
    (env : @MainPy.environment Block)
    (accounts : list string) (period_start period_end : Z)
    (block_processor : Block -> generated Blob) (chain : string) (max_tasks : Z)
    (custom_include_expr custom_exclude_expr : option string)
    (rs : list (Z * Z)) (outs : list (list Blob)) : Prop :=
  MainPy.run env accounts period_start period_end block_processor chain
    max_tasks custom_include_expr custom_exclude_expr
  = ([EvAuthRequest; EvChannelOpen]
       ++ ((fun r => EvStreamOpen (fst r) (snd r)) <$> rs)
       ++ [EvFileWrite (MainPy.filename chain accounts period_start period_end)
             (concat outs)],
     Return tt) /\
  Forall2 (fun r out =>
             exists blocks,
               MainPy.Blocks env (MainPy.request accounts custom_include_expr
                                    custom_exclude_expr (fst r) (snd r))
               = Response <$> blocks /\
               out = flat_map (fun b => fst (block_processor b)) blocks)
          rs outs /\
  (forall raw_blocks data,
     Common.process_blocks raw_blocks block_processor = Return data ->
     data = flat_map (fun b => fst (block_processor b)) raw_blocks).

(** ** The stream worker *)

(** The loop of [Common.stream_blocks] is left by an RPC error while the
    block numbered [awaited] is expected, [accumulated] items being held
    in [data] at that point. *)
Definition ends_in_rpc_error {Block Blob : Type} (stub_config : @Common.StubConfig Block)
    (start end_ : Z) (block_processor : option (Block -> generated Blob))
    (kwargs : gmap string Common.pyval) (awaited : Z) (accumulated : nat) : Prop :=
  let responses :=
    Common.Blocks stub_config
      (Common.request_parameters start end_ (Common.REQUEST_PARAMETERS stub_config) kwargs) in
  match block_processor with
  | Some block_processor =>
      exists details data,
        Common.consume_parsing block_processor responses start []
        = Common.Raised (AioRpcError details) awaited data /\
        length data = accumulated
  | None =>
      exists details data,
        Common.consume_raw responses start []
        = Common.Raised (AioRpcError details) awaited data /\
        length data = accumulated
  end.

(** ** Request parameters *)

(** The arguments given explicitly to one call of [Common.stream_blocks]:
    the bounds [start] and [end], sent as [start_block_num] and
    [stop_block_num], and the keyword arguments. *)
Definition per_call_arguments (start end_ : Z) (kwargs : gmap string Common.pyval)
    : gmap string Common.pyval :=
  kwargs ∪ Common.positional_parameters start end_.

(** Configuration has the lowest precedence: a key given both by the
    stub configuration and for the call is sent with the value of the call. *)
Definition per_call_wins (start end_ : Z)
    (REQUEST_PARAMETERS kwargs : gmap string Common.pyval) : Prop :=
  forall key v c,
    per_call_arguments start end_ kwargs !! key = Some v ->
    REQUEST_PARAMETERS !! key = Some c ->
    Common.request_parameters start end_ REQUEST_PARAMETERS kwargs !! key = Some v.

(** ** Start-up checks *)

(** No event of the trace is network activity (token query, channel or
    stream) and none writes the output file. *)
Definition offline {Blob : Type} (t : list (event Blob)) : Prop :=
  Forall (fun ev => is_network ev = false /\ is_file_write ev = false) t.

(** No RPC channel or stream is opened and no output file is written. *)
Definition no_stream_no_file {Blob : Type} (t : list (event Blob)) : Prop :=
  Forall (fun ev => is_connection ev = false /\ is_file_write ev = false) t.

(** The script of [main.py] reaches the signature check with candidate [c]. *)
Definition main_py_checks {Block Blob : Type}
    (load : string -> string -> result (Signature.candidate Block Blob))
    (args : MainPy.arguments) (c : Signature.candidate Block Blob) : Prop :=
  MainPy.block_start args <= MainPy.block_end args /\
  MainPy.disable_signature_check args = false /\
  exists module function,
    MainPy.processor_path args = Return (module, function) /\
    load module function = Return c.

(** [main()] of [pyfirehose] reaches the signature check with candidate [c]. *)
Definition pyfirehose_checks {Block Blob : Type}
    (env : @Pyfirehose.environment Block Blob)
    (args : Pyfirehose.arguments) (c : Signature.candidate Block Blob) : Prop :=
  truthy (Pyfirehose.JWT env) = true /\
  Pyfirehose.start args <= Pyfirehose.end_ args /\
  Pyfirehose.disable_signature_check args = false /\
  exists module function,
    Pyfirehose.processor_path args = Return (module, function) /\
    Pyfirehose.load env module function = Return c.

(** The warning is logged and the run goes on: [run] in [main.py], the
    streaming of [asyncio_main] in [pyfirehose]. *)
Definition warns_and_continues {Block Blob : Type}
    (env : @MainPy.environment Block)
    (load : string -> string -> result (Signature.candidate Block Blob))
    (args : MainPy.arguments)
    (penv : @Pyfirehose.environment Block Blob) (pargs : Pyfirehose.arguments)
    (c : Signature.candidate Block Blob) : Prop :=
  let run :=
    MainPy.run env (MainPy.accounts args) (MainPy.block_start args)
      (MainPy.block_end args) (Signature.call c) (MainPy.chain args)
      (MainPy.max_tasks args) (MainPy.custom_include_expr args)
      (MainPy.custom_exclude_expr args) in
  trace (MainPy.script env load args) = EvLog LogSignatureUnchecked :: trace run /\
  outcome (MainPy.script env load args) = outcome run /\
  trace (Pyfirehose.script penv pargs)
  = EvAuthRequest :: EvLog LogSignatureUnchecked
      :: trace (Pyfirehose.asyncio_main penv (Pyfirehose.start pargs)
                  (Pyfirehose.end_ pargs) (Pyfirehose.chain pargs)
                  (Pyfirehose.custom_include_expr pargs)
                  (Pyfirehose.custom_exclude_expr pargs)).

(** The start-up fails with exit status 1: in [main.py] before any
    network activity, in [pyfirehose] with only the token query made;
    no channel or stream is opened and no output file is written. *)
Definition fails_at_startup {Block Blob : Type}
    (env : @MainPy.environment Block)
    (load : string -> string -> result (Signature.candidate Block Blob))
    (args : MainPy.arguments)
    (penv : @Pyfirehose.environment Block Blob) (pargs : Pyfirehose.arguments) : Prop :=
  (MainPy.script env load args = ([EvLog LogLoadFailed], Raise (SystemExit 1)) /\
   exit_status (outcome (MainPy.script env load args)) = 1 /\
   offline (trace (MainPy.script env load args))) /\
  (Pyfirehose.script penv pargs
   = ([EvAuthRequest; EvLog LogLoadFailed], Raise (TypeError Signature.incompatible_msg)) /\
   exit_status (outcome (Pyfirehose.script penv pargs)) = 1 /\
   no_stream_no_file (trace (Pyfirehose.script penv pargs))).

(** ** Sample inputs

    A server that delivers the blocks of the requested range in order
    (a block is its number), a block processor that emits one record per
    block (the record is the block number), and some failing variants. *)

Module Sample.

Definition one_per_block (b : Z) : generated Z := ([b], None).

Definition blocks_between (lo hi : Z) : list Z := (fun i => lo + i) <$> range (hi - lo).

Definition server (request : MainPy.BlocksRequestV2) : list (stream_item Z) :=
  Response <$> blocks_between (MainPy.start_block_num request) (MainPy.stop_block_num request).

Definition env : MainPy.environment :=
  {| MainPy.status_code := 200; MainPy.Blocks := server |}.

(** The same server behind the stub of [Common], and one whose remote
    call fails once fifty blocks have been delivered. *)
Definition bounds (request : gmap string Common.pyval) : Z * Z :=
  match request !! "start_block_num"%string, request !! "stop_block_num"%string with
  | Some (Common.VInt lo), Some (Common.VInt hi) => (lo, hi)
  | _, _ => (0, 0)
  end.

Definition stub_config : Common.StubConfig :=
  {| Common.REQUEST_PARAMETERS := {[ "fork_steps"%string := Common.VList ["STEP_IRREVERSIBLE"%string] ]};
     Common.Blocks := fun request =>
       Response <$> blocks_between (fst (bounds request)) (snd (bounds request)) |}.

Definition failing_stub_config : Common.StubConfig :=
  {| Common.REQUEST_PARAMETERS := {[ "fork_steps"%string := Common.VList ["STEP_IRREVERSIBLE"%string] ]};
     Common.Blocks := fun request =>
       (Response <$> blocks_between (fst (bounds request)) (fst (bounds request) + 50))
         ++ [RpcFailure "Deadline Exceeded"; Response (snd (bounds request))] |}.

(** Candidates for the block processor: one with an unannotated
    parameter, one fully annotated that is not a generator function. *)
Definition unannotated : Signature.candidate Z Z :=
  {| Signature.signature_of :=
       {| Signature.parameters := [Signature.Unannotated];
          Signature.return_annotation := Signature.DictType |};
     Signature.isgeneratorfunction := true;
     Signature.call := one_per_block |}.

Definition eager : Signature.candidate Z Z :=
  {| Signature.signature_of :=
       {| Signature.parameters := [Signature.BlockType];
          Signature.return_annotation := Signature.DictType |};
     Signature.isgeneratorfunction := false;
     Signature.call := one_per_block |}.

Definition args (block_start block_end : Z) : MainPy.arguments :=
  {| MainPy.accounts := ["alice"%string];
     MainPy.block_start := block_start;
     MainPy.block_end := block_end;
     MainPy.chain := "eos";
     MainPy.max_tasks := 2;
     MainPy.custom_exclude_expr := None;
     MainPy.custom_include_expr := None;
     MainPy.custom_processor := None;
     MainPy.disable_signature_check := false |}.

Definition pyfirehose_args (start end_ : Z) : Pyfirehose.arguments :=
  {| Pyfirehose.start := start;
     Pyfirehose.end_ := end_;
     Pyfirehose.chain := "eos";
     Pyfirehose.out_file := "jsonl/{chain}_{start}_to_{end}.jsonl";
     Pyfirehose.custom_include_expr := None;
     Pyfirehose.custom_exclude_expr := None;
     Pyfirehose.custom_processor := None;
     Pyfirehose.disable_signature_check := false |}.

Definition pyfirehose_env (c : Signature.candidate Z Z) : Pyfirehose.environment :=
  {| Pyfirehose.JWT := Some "token"%string;
     Pyfirehose.load := fun _ _ => Return c;
     Pyfirehose.asyncio_main := fun start end_ _ _ _ =>
       ([EvChannelOpen; EvStreamOpen start end_], Return (blocks_between start end_)) |}.

End Sample.

(** * Further notions, for the behaviour outside the specification's claims *)

Definition is_stream {Blob} (ev : event Blob) : bool :=
  match ev with
  | EvStreamOpen _ _ => true
  | _ => false
  end.

(** The streams opened along a trace, as sub-ranges. *)
Fixpoint streams_of {Blob} (t : list (event Blob)) : list (Z * Z) :=
  match t with
  | [] => []
  | EvStreamOpen start end_ :: t => (start, end_) :: streams_of t
  | _ :: t => streams_of t
  end.

(** The exceptions caught by [except grpc.aio.AioRpcError]. *)
Definition is_rpc_error (e : exn) : bool :=
  match e with
  | AioRpcError _ => true
  | _ => false
  end.

(** The string holds a dot. *)
Fixpoint has_dot (s : string) : bool :=
  match s with
  | EmptyString => false
  | String c rest => Ascii.eqb c "."%char || has_dot rest
  end.

(** ** More sample inputs *)

Module Cases.

(** The authentication endpoint refuses the API key. *)
Definition denied : MainPy.environment :=
  {| MainPy.status_code := 401; MainPy.Blocks := Sample.server |}.

(** A server whose stream starting at block 105 breaks after two blocks. *)
Definition flaky_server (request : MainPy.BlocksRequestV2) : list (stream_item Z) :=
  if MainPy.start_block_num request =? 105
  then [Response 105; Response 106; RpcFailure "Unavailable"]
  else Sample.server request.

Definition flaky : MainPy.environment :=
  {| MainPy.status_code := 200; MainPy.Blocks := flaky_server |}.

(** A server on which two streams break: the one starting at block 103,
    after one block, and the one starting at block 106, at once. *)
Definition stormy_server (request : MainPy.BlocksRequestV2) : list (stream_item Z) :=
  if MainPy.start_block_num request =? 103
  then [Response 103; RpcFailure "Unavailable"]
  else if MainPy.start_block_num request =? 106
       then [RpcFailure "Deadline Exceeded"]
       else Sample.server request.

Definition stormy : MainPy.environment :=
  {| MainPy.status_code := 200; MainPy.Blocks := stormy_server |}.

(** A block processor that fails on block 1002, and one that keeps the
    even blocks only. *)
Definition choking (b : Z) : generated Z :=
  if b =? 1002 then ([], Some (ValueError "bad block")) else ([b], None).

Definition even_only (b : Z) : generated Z :=
  if Z.even b then ([b], None) else ([], None).

(** A candidate that passes the signature check, one without parameters,
    and a module loader that finds nothing. *)
Definition compatible : Signature.candidate Z Z :=
  {| Signature.signature_of :=
       {| Signature.parameters := [Signature.BlockType];
          Signature.return_annotation := Signature.DictType |};
     Signature.isgeneratorfunction := true;
     Signature.call := Sample.one_per_block |}.

Definition nullary : Signature.candidate Z Z :=
  {| Signature.signature_of :=
       {| Signature.parameters := [];
          Signature.return_annotation := Signature.DictType |};
     Signature.isgeneratorfunction := true;
     Signature.call := Sample.one_per_block |}.

Definition missing (module function : string) : result (Signature.candidate Z Z) :=
  Raise (AttributeError "module has no such attribute").

Definition custom_args (name : string) (check : bool) : MainPy.arguments :=
  {| MainPy.accounts := ["alice"%string];
     MainPy.block_start := 100;
     MainPy.block_end := 110;
     MainPy.chain := "eos";
     MainPy.max_tasks := 2;
     MainPy.custom_exclude_expr := None;
     MainPy.custom_include_expr := None;
     MainPy.custom_processor := Some name;
     MainPy.disable_signature_check := negb check |}.

Definition custom_pyfirehose_args (name : string) (check : bool) : Pyfirehose.arguments :=
  {| Pyfirehose.start := 100;
     Pyfirehose.end_ := 110;
     Pyfirehose.chain := "eos";
     Pyfirehose.out_file := "jsonl/{chain}_{start}_to_{end}.jsonl";
     Pyfirehose.custom_include_expr := None;
     Pyfirehose.custom_exclude_expr := None;
     Pyfirehose.custom_processor := Some name;
     Pyfirehose.disable_signature_check := negb check |}.

Definition pyfirehose_env
    (JWT : option string)
    (load : string -> string -> result (Signature.candidate Z Z)) : Pyfirehose.environment :=
  {| Pyfirehose.JWT := JWT;
     Pyfirehose.load := load;
     Pyfirehose.asyncio_main := fun start end_ _ _ _ =>
       ([EvChannelOpen; EvStreamOpen start end_],
        Return (Sample.blocks_between start end_)) |}.

End Cases.
(** * Properties *)

(** ** The range splitter of [src/main.py] *)

Lemma range_length n : length (range n) = Z.to_nat n.
Proof. unfold range. by rewrite length_fmap, length_seq. Qed.

Lemma range_lookup n (i : nat) :
  Z.of_nat i < n -> range n !! i = Some (Z.of_nat i).
Proof.
  intros Hi. unfold range. rewrite list_lookup_fmap, lookup_seq_lt by lia. done.
Qed.

Lemma range_lookup_Some n (i : nat) x :
  range n !! i = Some x -> x = Z.of_nat i /\ Z.of_nat i < n.
Proof.
  unfold range. rewrite list_lookup_fmap. intros H.
  destruct (seq 0 (Z.to_nat n) !! i) as [k|] eqn:Hk; simplify_eq/=.
  apply lookup_seq in Hk as [-> Hlt]. split; [done | lia].
Qed.

Lemma clamp_tasks_le d m : 1 <= d -> 1 <= m -> 1 <= MainPy.clamp_tasks d m <= d.
Proof.
  intros Hd Hm. unfold MainPy.clamp_tasks. destruct (Z.ltb_spec d m); lia.
Qed.

Lemma chunk_bounds d n : 1 <= n <= d -> 1 <= d / n /\ n * (d / n) <= d.
Proof.
  intros Hn. split.
  - apply Z.div_le_lower_bound; lia.
  - apply Z.mul_div_le. lia.
Qed.

Lemma task_ranges_nonempty_period ps pe m :
  ps < pe -> 1 <= m ->
  MainPy.task_ranges ps pe m =
    Return (MainPy.task_bounds ps pe (MainPy.clamp_tasks (pe - ps) m)
              ((pe - ps) / MainPy.clamp_tasks (pe - ps) m)
            <$> range (MainPy.clamp_tasks (pe - ps) m)).
Proof.
  intros Hlt Hm. unfold MainPy.task_ranges, floordiv.
  pose proof (clamp_tasks_le (pe - ps) m ltac:(lia) Hm) as Hn.
  destruct (Z.eqb_spec (MainPy.clamp_tasks (pe - ps) m) 0); [lia | done].
Qed.

Lemma task_bounds_lookup ps pe n chunk (i : nat) r :
  (MainPy.task_bounds ps pe n chunk <$> range n) !! i = Some r ->
  Z.of_nat i < n /\ r = MainPy.task_bounds ps pe n chunk (Z.of_nat i).
Proof.
  rewrite list_lookup_fmap. intros H.
  destruct (range n !! i) as [x|] eqn:Hx; simplify_eq/=.
  apply range_lookup_Some in Hx as [-> Hlt]. done.
Qed.

Lemma task_bounds_covers ps pe n chunk (i : nat) b :
  1 <= chunk -> n * chunk <= pe - ps -> Z.of_nat i < n ->
  covers (MainPy.task_bounds ps pe n chunk (Z.of_nat i)) b ->
  ps + Z.of_nat i * chunk <= b /\
  (b < ps + (Z.of_nat i + 1) * chunk \/ Z.of_nat i = n - 1) /\
  ps <= b < pe.
Proof.
  intros Hc Hn Hi. unfold covers, MainPy.task_bounds. simpl.
  destruct (Z.ltb_spec (Z.of_nat i) (n - 1)); intros [Hlo Hhi].
  - repeat split; [lia | left; lia | nia | nia].
  - repeat split; [lia | right; lia | nia | lia].
Qed.

(** On a non-empty period the splitter does what the specification asks. *)
Lemma task_ranges_partition ps pe m :
  ps < pe -> 1 <= m -> splits_as_specified ps pe m.
Proof.
  intros Hlt Hm. unfold splits_as_specified.
  eexists. split; [by apply task_ranges_nonempty_period |].
  pose proof (clamp_tasks_le (pe - ps) m ltac:(lia) Hm) as Hn.
  set (n := MainPy.clamp_tasks (pe - ps) m) in *.
  pose proof (chunk_bounds (pe - ps) n Hn) as [Hc Hnc].
  set (chunk := (pe - ps) / n) in *. cbv zeta.
  split; [rewrite length_fmap, range_length; lia |].
  split; [| split; [| split]].
  - intros i Hi. rewrite list_lookup_fmap, range_lookup by done. simpl.
    unfold MainPy.task_bounds. f_equal. f_equal.
    destruct (Z.ltb_spec (Z.of_nat i) (n - 1)); case_decide; lia.
  - intros i r r' Hr Hr'.
    apply task_bounds_lookup in Hr as [Hi ->].
    apply task_bounds_lookup in Hr' as [Hi' ->].
    unfold MainPy.task_bounds. simpl.
    destruct (Z.ltb_spec (Z.of_nat i) (n - 1)); lia.
  - intros i j r r' b Hr Hr' Hb Hb'.
    apply task_bounds_lookup in Hr as [Hi ->].
    apply task_bounds_lookup in Hr' as [Hj ->].
    apply task_bounds_covers in Hb as (Hlo & Hhi & _); [| done..].
    apply task_bounds_covers in Hb' as (Hlo' & Hhi' & _); [| done..].
    destruct (Nat.lt_trichotomy i j) as [Hij | [-> | Hij]]; [| done |].
    + exfalso. destruct Hhi as [Hhi | Hhi]; [nia | lia].
    + exfalso. destruct Hhi' as [Hhi' | Hhi']; [nia | lia].
  - intros b. split.
    + intros (r & Hr & Hb). apply list_elem_of_lookup in Hr as [i Hr].
      apply task_bounds_lookup in Hr as [Hi ->].
      by apply task_bounds_covers in Hb as (_ & _ & ?).
    + intros Hb.
      set (q := (b - ps) / chunk).
      assert (Hq : 0 <= q /\ q * chunk <= b - ps < (q + 1) * chunk).
      { subst q. split; [apply Z.div_pos; lia |].
        pose proof (Z.div_mod (b - ps) chunk ltac:(lia)).
        pose proof (Z.mod_pos_bound (b - ps) chunk ltac:(lia)). nia. }
      set (i := Z.to_nat (Z.min q (n - 1))).
      assert (Hi : Z.of_nat i = Z.min q (n - 1)) by (subst i; lia).
      exists (MainPy.task_bounds ps pe n chunk (Z.of_nat i)). split.
      * apply list_elem_of_lookup. exists i.
        rewrite list_lookup_fmap, range_lookup by lia. done.
      * unfold covers, MainPy.task_bounds. simpl.
        destruct (Z.ltb_spec (Z.of_nat i) (n - 1)); [| nia].
        assert (Z.of_nat i = q) by lia. nia.
Qed.

(** With more tasks allowed than blocks, a non-empty period is split into
    exactly [period_end - period_start] sub-ranges, each one block wide. *)
Lemma task_ranges_clamped ps pe m :
  ps < pe -> pe - ps < m ->
  exists rs, MainPy.task_ranges ps pe m = Return rs /\
             Z.of_nat (length rs) = pe - ps /\
             Forall (fun r => snd r - fst r = 1) rs.
Proof.
  intros Hlt Hm. eexists. split; [apply task_ranges_nonempty_period; lia |].
  assert (Hn : MainPy.clamp_tasks (pe - ps) m = pe - ps).
  { unfold MainPy.clamp_tasks. destruct (Z.ltb_spec (pe - ps) m); lia. }
  rewrite Hn, Z.div_same by lia. split.
  - rewrite length_fmap, range_length. lia.
  - apply Forall_lookup. intros i r Hr.
    apply task_bounds_lookup in Hr as [Hi ->]. unfold MainPy.task_bounds. simpl.
    destruct (Z.ltb_spec (Z.of_nat i) (pe - ps - 1)); lia.
Qed.

(** On an empty period ([period_start = period_end]) with a non-negative
    task limit the clamped task count is zero and line 126 divides by it. *)
Lemma task_ranges_empty_period ps m :
  0 <= m ->
  MainPy.clamp_tasks (ps - ps) m = 0 /\
  MainPy.task_ranges ps ps m = Raise ZeroDivisionError.
Proof.
  intros Hm.
  assert (Hc : MainPy.clamp_tasks (ps - ps) m = 0).
  { unfold MainPy.clamp_tasks. rewrite Z.sub_diag. destruct (Z.ltb_spec 0 m); lia. }
  split; [done |]. unfold MainPy.task_ranges. rewrite Hc, Z.sub_diag. done.
Qed.

(** No empty period is split: the raise does not depend on the bounds. *)
Lemma empty_period_never_splits ps m :
  0 <= m -> ~ splits_as_specified ps ps m /\ ~ splits_into ps ps m (ps - ps).
Proof.
  intros Hm. destruct (task_ranges_empty_period ps m Hm) as [_ Hr].
  split; intros (rs & Hrs & _); congruence.
Qed.

(** C1 (failing input).  For [period_start = period_end = 100] and
    [max_tasks = 20], an input the script accepts ('block_start must be
    less than or equal to block_end'), the splitter raises
    [ZeroDivisionError] instead of producing sub-ranges whose union is the
    (empty) period: the partition asked by the specification is not
    delivered. *)
Theorem splitter_partition_fails_on_empty_period :
  100 <= 100 /\ 1 <= 20 /\
  MainPy.task_ranges 100 100 20 = Raise ZeroDivisionError /\
  ~ splits_as_specified 100 100 20.
Proof.
  split; [lia |]. split; [lia |].
  destruct (task_ranges_empty_period 100 20 ltac:(lia)) as [_ Hr].
  split; [exact Hr |]. intros (rs & Hrs & _). congruence.
Qed.

(** C2 (failing input).  For [period_start = period_end = 100] and
    [max_tasks = 20 > period_end - period_start] the task count is clamped
    to [0] and the chunk computation raises: no list of
    [period_end - period_start] sub-ranges is produced. *)
Theorem splitter_count_fails_on_empty_period :
  100 <= 100 /\ 100 - 100 < 20 /\
  MainPy.clamp_tasks (100 - 100) 20 = 0 /\
  MainPy.task_ranges 100 100 20 = Raise ZeroDivisionError /\
  ~ splits_into 100 100 20 (100 - 100).
Proof.
  split; [lia |]. split; [lia |].
  destruct (task_ranges_empty_period 100 20 ltac:(lia)) as [Hc Hr].
  split; [exact Hc |]. split; [exact Hr |]. intros (rs & Hrs & _). congruence.
Qed.

(** ** [run] of [src/main.py] *)

Section RunFacts.
Context {Block Blob : Type}.
Implicit Types (env : @MainPy.environment Block).
Implicit Types (block_processor : Block -> generated Blob).

Lemma run_unfold env accounts ps pe block_processor chain m inc exc :
  MainPy.status_code env = 200 ->
  MainPy.run env accounts ps pe block_processor chain m inc exc =
  match floordiv (pe - ps) (MainPy.clamp_tasks (pe - ps) m) with
  | Raise e => ([EvAuthRequest], Raise e)
  | Return split =>
      let '(spawned, tasks) :=
        MainPy.create_tasks
          (MainPy.stream_blocks env accounts block_processor inc exc)
          (MainPy.task_bounds ps pe (MainPy.clamp_tasks (pe - ps) m) split
             <$> range (MainPy.clamp_tasks (pe - ps) m)) in
      match tasks with
      | Raise e => (EvAuthRequest :: EvChannelOpen :: spawned, Raise e)
      | Return tasks =>
          match MainPy.gather tasks [] with
          | Raise e => (EvAuthRequest :: EvChannelOpen :: spawned, Raise e)
          | Return data =>
              (EvAuthRequest :: EvChannelOpen :: spawned
                 ++ [EvFileWrite (MainPy.filename chain accounts ps pe) data],
               Return tt)
          end
      end
  end.
Proof.
  intros Hs. unfold MainPy.run. rewrite Hs. simpl.
  destruct (floordiv _ _) as [split|e]; simpl; [| done].
  destruct (MainPy.create_tasks _ _) as [spawned [tasks|e]]; simpl; [| done].
  destruct (MainPy.gather tasks []) as [data|e]; simpl; [done |].
  by rewrite app_nil_r.
Qed.

Lemma create_tasks_eq (worker : Z -> Z -> result (list Blob)) (rs : list (Z * Z)) :
  MainPy.create_tasks (Blob:=Blob) worker rs =
  ((fun r => EvStreamOpen (fst r) (snd r)) <$> rs,
   Return ((fun r => worker (fst r) (snd r)) <$> rs)).
Proof.
  induction rs as [|[start end_] rs IH]; simpl; [done |].
  rewrite IH. simpl. by rewrite app_nil_r.
Qed.

Lemma gather_Return (tasks : list (result (list Blob))) data rows :
  MainPy.gather tasks data = Return rows ->
  exists outs, tasks = Return <$> outs /\ rows = data ++ concat outs.
Proof.
  revert data. induction tasks as [|[out|e] tasks IH]; intros data H; simpl in H.
  - exists []. simplify_eq. by rewrite app_nil_r.
  - apply IH in H as (outs & -> & ->). exists (out :: outs).
    simpl. by rewrite app_assoc.
  - done.
Qed.

Lemma gather_all_Return (outs : list (list Blob)) data :
  MainPy.gather (Return <$> outs) data = Return (data ++ concat outs).
Proof.
  revert data. induction outs as [|out outs IH]; intros data; simpl.
  - by rewrite app_nil_r.
  - by rewrite IH, app_assoc.
Qed.

(** The first failed worker, in index order, decides how the gathering ends. *)
Lemma gather_first_Raise (outs : list (list Blob)) e rest data :
  MainPy.gather ((Return <$> outs) ++ Raise e :: rest) data = Raise e.
Proof.
  revert data. induction outs as [|out outs IH]; intros data; simpl; [done | apply IH].
Qed.

Lemma consume_Return block_processor responses transactions rows :
  MainPy.consume block_processor responses transactions = Return rows ->
  exists blocks,
    responses = Response <$> blocks /\
    Forall (fun b => snd (block_processor b) = None) blocks /\
    rows = transactions ++ flat_map (fun b => fst (block_processor b)) blocks.
Proof.
  revert transactions.
  induction responses as [|[b|d] responses IH]; intros transactions H; simpl in H.
  - exists []. simplify_eq. simpl. by rewrite app_nil_r.
  - destruct (block_processor b) as [blobs [e|]] eqn:Hb; [done |].
    apply IH in H as (blocks & -> & Hok & ->). exists (b :: blocks).
    split; [done |]. split.
    + constructor; [by rewrite Hb | done].
    + simpl. by rewrite Hb, app_assoc.
  - done.
Qed.

Lemma consume_all_responses block_processor blocks transactions :
  Forall (fun b => snd (block_processor b) = None) blocks ->
  MainPy.consume block_processor (Response <$> blocks) transactions =
  Return (transactions ++ flat_map (fun b => fst (block_processor b)) blocks).
Proof.
  intros Hok. revert transactions.
  induction Hok as [|b blocks Hb _ IH]; intros transactions; simpl.
  - by rewrite app_nil_r.
  - destruct (block_processor b) as [blobs [e|]]; simpl in *; [done |].
    by rewrite IH, app_assoc.
Qed.

Lemma process_blocks_from_Return (block_processor : Block -> generated Blob) raw data rows :
  Common.process_blocks_from data raw block_processor = Return rows ->
  Forall (fun b => snd (block_processor b) = None) raw /\
  rows = data ++ flat_map (fun b => fst (block_processor b)) raw.
Proof.
  revert data. induction raw as [|b raw IH]; intros data H; simpl in H.
  - simplify_eq. simpl. by rewrite app_nil_r.
  - destruct (block_processor b) as [blobs [e|]] eqn:Hb; [done |].
    apply IH in H as [Hok ->]. split.
    + constructor; [by rewrite Hb | done].
    + simpl. by rewrite Hb, app_assoc.
Qed.

Lemma process_blocks_from_all (block_processor : Block -> generated Blob) raw data :
  Forall (fun b => snd (block_processor b) = None) raw ->
  Common.process_blocks_from data raw block_processor =
  Return (data ++ flat_map (fun b => fst (block_processor b)) raw).
Proof.
  intros Hok. revert data. induction Hok as [|b raw Hb _ IH]; intros data; simpl.
  - by rewrite app_nil_r.
  - destruct (block_processor b) as [blobs [e|]]; simpl in *; [done |].
    by rewrite IH, app_assoc.
Qed.

End RunFacts.

(** C10 (as stated, refuted).  With a negative task limit the count is not
    clamped to zero ([0 < -1] is false), [0 // -1] is [0], no task is
    created and an empty output file is written: [run] ends normally. *)
Lemma run_empty_period_negative_tasks :
  MainPy.status_code Sample.env = 200 /\
  MainPy.run Sample.env ["alice"%string] 100 100 Sample.one_per_block "eos" (-1) None None
  = ([EvAuthRequest; EvChannelOpen;
      EvFileWrite "jsonl/eos_alice_100_to_100.jsonl" []], Return tt) /\
  ~ empty_period_crashes Sample.env ["alice"%string] 100 100
      Sample.one_per_block "eos" (-1) None None.
Proof.
  split; [reflexivity |]. split; [vm_compute; reflexivity |].
  intros [Hc _]. vm_compute in Hc. discriminate Hc.
Qed.

(** C10 (amended).  For every call of [run] with
    [period_start = period_end], a task limit that is not negative and a
    token request answered with status 200, the clamped task count is
    zero and [run] raises [ZeroDivisionError] right after the token
    request: no channel or stream is opened and no output file is
    written. *)
Theorem run_empty_period_raises {Block Blob : Type} (env : @MainPy.environment Block)
    (accounts : list string) (period_start period_end : Z)
    (block_processor : Block -> generated Blob) (chain : string) (max_tasks : Z)
    (custom_include_expr custom_exclude_expr : option string) :
  MainPy.status_code env = 200 ->
  period_start = period_end ->
  0 <= max_tasks ->
  empty_period_crashes env accounts period_start period_end block_processor chain
    max_tasks custom_include_expr custom_exclude_expr.
Proof.
  intros Hs <- Hm.
  destruct (task_ranges_empty_period period_start max_tasks Hm) as [Hc _].
  split; [exact Hc |].
  rewrite run_unfold by done. rewrite Hc, Z.sub_diag. reflexivity.
Qed.

Lemma run_empty_period_raises_witness :
  empty_period_crashes Sample.env ["alice"%string] 100 100
    Sample.one_per_block "eos" 20 None None.
Proof.
  apply (run_empty_period_raises Sample.env ["alice"%string] 100 100
           Sample.one_per_block "eos" 20 None None);
    [reflexivity | reflexivity | lia].
Defined.

(** ** Aggregation *)

(** A run that ends normally is a run whose token request, splitting and
    workers all succeeded. *)
Lemma run_success_inv {Block Blob : Type} (env : @MainPy.environment Block)
    (accounts : list string) (period_start period_end : Z)
    (block_processor : Block -> generated Blob) (chain : string) (max_tasks : Z)
    (custom_include_expr custom_exclude_expr : option string) :
  outcome (MainPy.run env accounts period_start period_end block_processor chain
             max_tasks custom_include_expr custom_exclude_expr) = Return tt ->
  MainPy.status_code env = 200 /\
  exists rs outs,
    MainPy.task_ranges period_start period_end max_tasks = Return rs /\
    Forall2 (fun r out =>
               MainPy.stream_blocks env accounts block_processor
                 custom_include_expr custom_exclude_expr (fst r) (snd r) = Return out)
            rs outs.
Proof.
  intros Hok.
  destruct (Z.eqb_spec (MainPy.status_code env) 200) as [Hs|Hs].
  2: { unfold MainPy.run, outcome in Hok.
       destruct (Z.eqb_spec (MainPy.status_code env) 200); [lia | done]. }
  split; [done |].
  rewrite run_unfold in Hok by done.
  unfold MainPy.task_ranges, bind.
  destruct (floordiv _ _) as [split|e]; [| done].
  rewrite create_tasks_eq in Hok.
  set (rs := MainPy.task_bounds _ _ _ _ <$> _) in *.
  destruct (MainPy.gather _ []) as [data|e] eqn:Hg; [| done].
  apply gather_Return in Hg as (outs & Houts & ->).
  exists rs, outs. split; [done |].
  clear Hok. revert outs Houts. generalize rs. clear rs.
  induction rs as [|r rs IH]; intros [|out outs] Houts; simplify_eq/=.
  - constructor.
  - constructor; [done | by apply IH].
Qed.

(** The first worker that failed, in index order, ends the run with its
    exception: nothing is written. *)
Lemma run_first_failure {Block Blob : Type} (env : @MainPy.environment Block)
    (accounts : list string) (period_start period_end : Z)
    (block_processor : Block -> generated Blob) (chain : string) (max_tasks : Z)
    (custom_include_expr custom_exclude_expr : option string)
    (done_ : list (Z * Z)) (outs : list (list Blob)) (failed : Z * Z) (e : exn)
    (rest : list (Z * Z)) :
  MainPy.status_code env = 200 ->
  MainPy.task_ranges period_start period_end max_tasks = Return (done_ ++ failed :: rest) ->
  Forall2 (fun r out =>
             MainPy.stream_blocks env accounts block_processor
               custom_include_expr custom_exclude_expr (fst r) (snd r) = Return out)
          done_ outs ->
  MainPy.stream_blocks env accounts block_processor
    custom_include_expr custom_exclude_expr (fst failed) (snd failed) = Raise e ->
  MainPy.run env accounts period_start period_end block_processor chain
    max_tasks custom_include_expr custom_exclude_expr
  = ([EvAuthRequest; EvChannelOpen]
       ++ ((fun r => EvStreamOpen (fst r) (snd r)) <$> (done_ ++ failed :: rest)),
     Raise e).
Proof.
  intros Hs Hrs Hdone Hfailed. rewrite run_unfold by done.
  unfold MainPy.task_ranges, bind in Hrs.
  destruct (floordiv _ _) as [split|e']; [| done]. simplify_eq.
  rewrite Hrs, create_tasks_eq.
  set (worker := fun r : Z * Z =>
         MainPy.stream_blocks env accounts block_processor
           custom_include_expr custom_exclude_expr (fst r) (snd r)).
  assert (Hw : worker <$> (done_ ++ failed :: rest)
               = (Return <$> outs) ++ Raise e :: (worker <$> rest)).
  { rewrite fmap_app, fmap_cons. unfold worker at 2. rewrite Hfailed. f_equal.
    clear -Hdone. induction Hdone as [|r out rs outs Hr _ IH]; [done |].
    rewrite !fmap_cons. f_equal; [exact Hr | exact IH]. }
  rewrite Hw, gather_first_Raise. reflexivity.
Qed.

(** C5.  When the token request, the splitting and every worker succeed,
    [run] ends normally and the rows it writes are the concatenation of
    the workers' lists in the order of the sub-ranges (worker index); the
    list of each worker holds, block after block in arrival order, what
    the block processor yielded; the same order is kept by
    [process_blocks]. *)
Theorem run_concatenates_in_worker_order {Block Blob : Type}
    (env : @MainPy.environment Block)
    (accounts : list string) (period_start period_end : Z)
    (block_processor : Block -> generated Blob) (chain : string) (max_tasks : Z)
    (custom_include_expr custom_exclude_expr : option string)
    (rs : list (Z * Z)) (outs : list (list Blob)) :
  MainPy.status_code env = 200 ->
  MainPy.task_ranges period_start period_end max_tasks = Return rs ->
  Forall2 (fun r out =>
             MainPy.stream_blocks env accounts block_processor
               custom_include_expr custom_exclude_expr (fst r) (snd r) = Return out)
          rs outs ->
  aggregates_in_worker_order env accounts period_start period_end block_processor
    chain max_tasks custom_include_expr custom_exclude_expr rs outs.
Proof.
  intros Hs Hrs Hworkers. unfold aggregates_in_worker_order.
  split; [| split].
  - rewrite run_unfold by done.
    unfold MainPy.task_ranges, bind in Hrs.
    destruct (floordiv _ _) as [split|e]; [| done]. injection Hrs as Hrs.
    rewrite Hrs, create_tasks_eq.
    assert (Hw : (fun r => MainPy.stream_blocks env accounts block_processor
                             custom_include_expr custom_exclude_expr (fst r) (snd r))
                 <$> rs = Return <$> outs).
    { clear -Hworkers. induction Hworkers as [|r out rs outs Hr _ IH]; [done |].
      rewrite !fmap_cons. f_equal; [exact Hr | exact IH]. }
    rewrite Hw, gather_all_Return. reflexivity.
  - eapply Forall2_impl; [exact Hworkers |].
    intros r out Hr. unfold MainPy.stream_blocks in Hr.
    apply consume_Return in Hr as (blocks & Hb & _ & ->). by exists blocks.
  - intros raw data H. by apply process_blocks_from_Return in H as [_ ->].
Qed.

Lemma run_concatenates_in_worker_order_witness :
  aggregates_in_worker_order Sample.env ["alice"%string] 100 110 Sample.one_per_block
    "eos" 2 None None
    [(100, 105); (105, 110)]
    [[100; 101; 102; 103; 104]; [105; 106; 107; 108; 109]].
Proof.
  apply (run_concatenates_in_worker_order Sample.env ["alice"%string] 100 110
           Sample.one_per_block "eos" 2 None None).
  - reflexivity.
  - vm_compute. reflexivity.
  - repeat constructor.
Defined.

(** The end-to-end scenario of the specification: two workers over
    [[100, 105)] and [[105, 110)], rows in worker order. *)
Example run_sample_trace :
  MainPy.run Sample.env ["alice"%string] 100 110 Sample.one_per_block "eos" 2 None None
  = ([EvAuthRequest; EvChannelOpen; EvStreamOpen 100 105; EvStreamOpen 105 110;
      EvFileWrite "jsonl/eos_alice_100_to_110.jsonl"
        [100; 101; 102; 103; 104; 105; 106; 107; 108; 109]], Return tt).
Proof. vm_compute. reflexivity. Qed.

(** ** The stream worker of [common.py] *)

Section WorkerFacts.
Context {Block Blob : Type}.
Implicit Types (block_processor : Block -> generated Blob).
Implicit Types (blocks : list Block) (rest : list (stream_item Block)).

(** Each response received advances [current_block_number] by one. *)
Lemma consume_parsing_responses block_processor blocks rest current data :
  Forall (fun b => snd (block_processor b) = None) blocks ->
  Common.consume_parsing block_processor ((Response <$> blocks) ++ rest) current data =
  Common.consume_parsing block_processor rest
    (current + Z.of_nat (length blocks))
    (data ++ flat_map (fun b => fst (block_processor b)) blocks).
Proof.
  intros Hok. revert current data.
  induction Hok as [|b blocks Hb _ IH]; intros current data; simpl.
  - by rewrite Z.add_0_r, app_nil_r.
  - destruct (block_processor b) as [blobs [e|]]; simpl in *; [done |].
    rewrite IH, app_assoc. f_equal. lia.
Qed.

Lemma consume_raw_responses blocks rest current (data : list Block) :
  Common.consume_raw ((Response <$> blocks) ++ rest) current data =
  Common.consume_raw rest (current + Z.of_nat (length blocks)) (data ++ blocks).
Proof.
  revert current data.
  induction blocks as [|b blocks IH]; intros current data; simpl.
  - by rewrite Z.add_0_r, app_nil_r.
  - rewrite IH, <- app_assoc. simpl. f_equal. lia.
Qed.

Lemma one_per_block_length block_processor blocks :
  (forall b, exists r, block_processor b = ([r], None)) ->
  Forall (fun b => snd (block_processor b) = None) blocks /\
  length (flat_map (fun b => fst (block_processor b)) blocks) = length blocks.
Proof.
  intros Hone. induction blocks as [|b blocks [IHok IHlen]]; simpl; [done |].
  destruct (Hone b) as [r Hr]. split.
  - constructor; [by rewrite Hr | done].
  - rewrite Hr. simpl. by rewrite IHlen.
Qed.

End WorkerFacts.

(** C6.  A worker whose stream delivers exactly the [W = end - start]
    blocks of its sub-range, with a block processor that emits exactly
    one record per block, returns exactly [W] records: for the worker of
    [main.py] and for the worker of [common.py]. *)
Theorem one_record_per_block_yields_width {Block Blob : Type}
    (env : @MainPy.environment Block) (stub_config : @Common.StubConfig Block)
    (accounts : list string) (custom_include_expr custom_exclude_expr : option string)
    (kwargs : gmap string Common.pyval)
    (start end_ : Z) (block_processor : Block -> generated Blob) (blocks : list Block) :
  (forall b, exists r, block_processor b = ([r], None)) ->
  Z.of_nat (length blocks) = end_ - start ->
  (MainPy.Blocks env (MainPy.request accounts custom_include_expr custom_exclude_expr
                        start end_) = Response <$> blocks ->
   exists data,
     MainPy.stream_blocks env accounts block_processor custom_include_expr
       custom_exclude_expr start end_ = Return data /\
     Z.of_nat (length data) = end_ - start) /\
  (Common.Blocks stub_config
     (Common.request_parameters start end_ (Common.REQUEST_PARAMETERS stub_config) kwargs)
   = Response <$> blocks ->
   exists data,
     outcome (Common.stream_blocks stub_config start end_ (Some block_processor) kwargs)
     = Return (Common.Parsed data) /\
     Z.of_nat (length data) = end_ - start).
Proof.
  intros Hone Hw.
  destruct (one_per_block_length block_processor blocks Hone) as [Hok Hlen].
  split; intros Hs.
  - eexists. split.
    + unfold MainPy.stream_blocks. rewrite Hs. by apply consume_all_responses.
    + simpl. rewrite Hlen. exact Hw.
  - eexists. split.
    + unfold Common.stream_blocks, outcome. rewrite Hs.
      rewrite <- (app_nil_r (Response <$> blocks)).
      rewrite consume_parsing_responses by done. simpl. reflexivity.
    + rewrite Hlen. exact Hw.
Qed.

Lemma one_record_per_block_yields_width_witness :
  (exists data,
     MainPy.stream_blocks Sample.env ["alice"%string] Sample.one_per_block None None
       100 105 = Return data /\
     Z.of_nat (length data) = 105 - 100) /\
  (exists data,
     outcome (Common.stream_blocks Sample.stub_config 100 105
                (Some Sample.one_per_block) ∅)
     = Return (Common.Parsed data) /\
     Z.of_nat (length data) = 105 - 100).
Proof.
  destruct (one_record_per_block_yields_width Sample.env Sample.stub_config
              ["alice"%string] None None ∅ 100 105 Sample.one_per_block
              (Sample.blocks_between 100 105)) as [Hmain Hcommon].
  - intros b. by exists b.
  - reflexivity.
  - split; [apply Hmain | apply Hcommon]; vm_compute; reflexivity.
Defined.

(** C4.  A worker over [[start, end)] whose remote call fails after [k]
    blocks were received stops there (whatever the stream would hold
    next) and raises [BlockStreamException(start, end, start + k)], the
    number of the block that was awaited. *)
Theorem rpc_error_reports_awaited_block {Block Blob : Type}
    (stub_config : @Common.StubConfig Block) (start end_ : Z)
    (block_processor : option (Block -> generated Blob))
    (kwargs : gmap string Common.pyval)
    (blocks : list Block) (details : string) (rest : list (stream_item Block)) :
  Common.Blocks stub_config
    (Common.request_parameters start end_ (Common.REQUEST_PARAMETERS stub_config) kwargs)
  = (Response <$> blocks) ++ RpcFailure details :: rest ->
  (forall p, block_processor = Some p -> Forall (fun b => snd (p b) = None) blocks) ->
  Common.stream_blocks stub_config start end_ block_processor kwargs
  = ([EvStreamOpen start end_;
      EvLog (LogBlockFailed (start + Z.of_nat (length blocks)))],
     Raise (BlockStreamException start end_ (start + Z.of_nat (length blocks)))).
Proof.
  intros Hs Hok. unfold Common.stream_blocks. rewrite Hs.
  destruct block_processor as [p|].
  - rewrite consume_parsing_responses by (by apply Hok). reflexivity.
  - rewrite consume_raw_responses. reflexivity.
Qed.

(** The failure scenario of the specification: the worker over
    [[1000, 1100)] fails while block 1050 is awaited. *)
Lemma rpc_error_reports_awaited_block_witness :
  Common.stream_blocks Sample.failing_stub_config 1000 1100
    (Some Sample.one_per_block) ∅
  = ([EvStreamOpen 1000 1100; EvLog (LogBlockFailed 1050)],
     Raise (BlockStreamException 1000 1100 1050)).
Proof.
  apply (rpc_error_reports_awaited_block Sample.failing_stub_config 1000 1100
           (Some Sample.one_per_block) ∅ (Sample.blocks_between 1000 1050)
           "Deadline Exceeded" [Response 1100]).
  - vm_compute. reflexivity.
  - intros p Hp. apply Forall_forall. intros b _.
    injection Hp as <-. reflexivity.
Defined.

(** C9.  A worker whose remote call fails after some blocks were received
    leaves its loop by the RPC error with everything gathered so far
    held in [data] (the records yielded for these blocks, or the raw
    blocks themselves), and none of it reaches the caller: the worker
    raises [BlockStreamException] and returns nothing. *)
Theorem rpc_error_discards_partial_data {Block Blob : Type}
    (stub_config : @Common.StubConfig Block) (start end_ : Z)
    (block_processor : option (Block -> generated Blob))
    (kwargs : gmap string Common.pyval)
    (blocks : list Block) (details : string) (rest : list (stream_item Block)) :
  Common.Blocks stub_config
    (Common.request_parameters start end_ (Common.REQUEST_PARAMETERS stub_config) kwargs)
  = (Response <$> blocks) ++ RpcFailure details :: rest ->
  (forall p, block_processor = Some p -> Forall (fun b => snd (p b) = None) blocks) ->
  ends_in_rpc_error stub_config start end_ block_processor kwargs
    (start + Z.of_nat (length blocks))
    (match block_processor with
     | Some p => length (flat_map (fun b => fst (p b)) blocks)
     | None => length blocks
     end) /\
  outcome (Common.stream_blocks stub_config start end_ block_processor kwargs)
  = Raise (BlockStreamException start end_ (start + Z.of_nat (length blocks))) /\
  forall data,
    outcome (Common.stream_blocks stub_config start end_ block_processor kwargs)
    <> Return data.
Proof.
  intros Hs Hok.
  unfold ends_in_rpc_error, Common.stream_blocks, outcome. rewrite Hs.
  destruct block_processor as [p|].
  - rewrite consume_parsing_responses by (by apply Hok). simpl.
    split; [by eexists _, _ |]. split; [reflexivity | discriminate].
  - rewrite consume_raw_responses. simpl.
    split; [by eexists _, _ |]. split; [reflexivity | discriminate].
Qed.

Lemma rpc_error_discards_partial_data_witness :
  (ends_in_rpc_error Sample.failing_stub_config 1000 1100
     (Some Sample.one_per_block) ∅ 1050 50 /\
   outcome (Common.stream_blocks Sample.failing_stub_config 1000 1100
              (Some Sample.one_per_block) ∅)
   = Raise (BlockStreamException 1000 1100 1050) /\
   forall data,
     outcome (Common.stream_blocks Sample.failing_stub_config 1000 1100
                (Some Sample.one_per_block) ∅)
     <> Return data) /\
  (ends_in_rpc_error (Blob:=Z) Sample.failing_stub_config 1000 1100 None ∅ 1050 50 /\
   outcome (Common.stream_blocks (Blob:=Z) Sample.failing_stub_config 1000 1100 None ∅)
   = Raise (BlockStreamException 1000 1100 1050) /\
   forall data,
     outcome (Common.stream_blocks (Blob:=Z) Sample.failing_stub_config 1000 1100 None ∅)
     <> Return data).
Proof.
  split.
  - apply (rpc_error_discards_partial_data Sample.failing_stub_config 1000 1100
             (Some Sample.one_per_block) ∅ (Sample.blocks_between 1000 1050)
             "Deadline Exceeded" [Response 1100]).
    + vm_compute. reflexivity.
    + intros p Hp. apply Forall_forall. intros b _.
      injection Hp as <-. reflexivity.
  - apply (rpc_error_discards_partial_data (Blob:=Z) Sample.failing_stub_config
             1000 1100 None ∅ (Sample.blocks_between 1000 1050)
             "Deadline Exceeded" [Response 1100]).
    + vm_compute. reflexivity.
    + intros p Hp. discriminate Hp.
Defined.

(** ** Request parameters of [common.py] *)

(** C7 (as stated, refuted).  A [start_block_num] of the stub
    configuration replaces the bound [start] given to the call: the
    configuration does not have the lowest precedence. *)
Lemma config_overrides_call_bounds :
  Common.request_parameters 1 2 {[ "start_block_num"%string := Common.VInt 7 ]} ∅
    !! "start_block_num"%string = Some (Common.VInt 7) /\
  ~ per_call_wins 1 2 {[ "start_block_num"%string := Common.VInt 7 ]} ∅.
Proof.
  split; [vm_compute; reflexivity |].
  intros H.
  specialize (H "start_block_num"%string (Common.VInt 1) (Common.VInt 7)).
  assert (Hsent : Common.request_parameters 1 2
                    {[ "start_block_num"%string := Common.VInt 7 ]} ∅
                    !! "start_block_num"%string = Some (Common.VInt 1)).
  { apply H; vm_compute; reflexivity. }
  vm_compute in Hsent. discriminate Hsent.
Qed.

(** C7 (amended).  The value sent for a key is the keyword argument of
    the call when there is one, else the value of the stub configuration
    when there is one, else the bound given to the call
    ([start] for [start_block_num], [end] for [stop_block_num]). *)
Theorem request_parameters_precedence (start end_ : Z)
    (REQUEST_PARAMETERS kwargs : gmap string Common.pyval) (key : string) :
  Common.request_parameters start end_ REQUEST_PARAMETERS kwargs !! key =
    match kwargs !! key with
    | Some v => Some v
    | None =>
        match REQUEST_PARAMETERS !! key with
        | Some c => Some c
        | None => Common.positional_parameters start end_ !! key
        end
    end /\
  Common.positional_parameters start end_ !! "start_block_num"%string
    = Some (Common.VInt start) /\
  Common.positional_parameters start end_ !! "stop_block_num"%string
    = Some (Common.VInt end_).
Proof.
  split; [| split].
  - unfold Common.request_parameters. rewrite !lookup_union.
    destruct (kwargs !! key), (REQUEST_PARAMETERS !! key),
      (Common.positional_parameters start end_ !! key); reflexivity.
  - unfold Common.positional_parameters.
    rewrite lookup_insert_ne by done. apply lookup_insert_eq.
  - unfold Common.positional_parameters. apply lookup_insert_eq.
Qed.

(** ** Start-up checks *)

Lemma annotation_eqb_eq a b : Signature.annotation_eqb a b = true <-> a = b.
Proof.
  destruct a, b; simpl; try (split; [discriminate | congruence]); try done.
  rewrite String.eqb_eq. split; congruence.
Qed.

Lemma existsb_annotation a l :
  existsb (fun t => Signature.annotation_eqb t a) l = true <-> In a l.
Proof.
  rewrite existsb_exists. split.
  - intros (x & Hx & Heq). apply annotation_eqb_eq in Heq. by subst.
  - intros Hin. exists a. split; [done | by apply annotation_eqb_eq].
Qed.

Lemma existsb_annotation' a l :
  existsb (Signature.annotation_eqb a) l = true <-> In a l.
Proof.
  rewrite existsb_exists. split.
  - intros (x & Hx & Heq). apply annotation_eqb_eq in Heq. by subst.
  - intros Hin. exists a. split; [done | by apply annotation_eqb_eq].
Qed.

(** The branch of the warning is taken exactly for the partially
    annotated signatures. *)
Lemma not_checkable_iff sg :
  Signature.not_checkable sg = true <-> Signature.partially_annotated sg.
Proof.
  unfold Signature.not_checkable, Signature.partially_annotated.
  rewrite !orb_true_iff, andb_true_iff, negb_true_iff, annotation_eqb_eq,
    existsb_annotation.
  split; [| tauto]. intros [[H | [H1 H2]] | H]; [tauto | congruence | tauto].
Qed.

Lemma incompatible_iff {Block Blob} (c : Signature.candidate Block Blob) :
  Signature.incompatible c = true <->
  (~ In Signature.BlockType (Signature.parameters (Signature.signature_of c))
   \/ Signature.return_annotation (Signature.signature_of c) <> Signature.DictType
   \/ Signature.isgeneratorfunction c = false).
Proof.
  unfold Signature.incompatible.
  rewrite !orb_true_iff, !negb_true_iff, <- !not_true_iff_false,
    annotation_eqb_eq, existsb_annotation'.
  rewrite not_true_iff_false. tauto.
Qed.

Lemma check_partially_annotated {Block Blob} (c : Signature.candidate Block Blob) :
  Signature.partially_annotated (Signature.signature_of c) ->
  Signature.check c = ([EvLog LogSignatureUnchecked], Return tt).
Proof.
  intros H. apply not_checkable_iff in H. unfold Signature.check. by rewrite H.
Qed.

Lemma check_incompatible {Block Blob} (c : Signature.candidate Block Blob) :
  Signature.fully_annotated_incompatible c ->
  Signature.check (Blob:=Blob) c = ([], Raise (TypeError Signature.incompatible_msg)).
Proof.
  intros [Hfull Hinc]. unfold Signature.check.
  destruct (Signature.not_checkable _) eqn:Hn.
  - apply not_checkable_iff in Hn. done.
  - apply incompatible_iff in Hinc. by rewrite Hinc.
Qed.

(** C3 (as stated, refuted).  In [pyfirehose] the token is queried while
    the module is loaded, before [main()] compares the bounds: the run
    with [start = 110] and [end = 100] is refused after network activity. *)
Lemma pyfirehose_queries_token_before_period_check :
  Pyfirehose.end_ (Sample.pyfirehose_args 110 100)
    < Pyfirehose.start (Sample.pyfirehose_args 110 100) /\
  Pyfirehose.script (Sample.pyfirehose_env Sample.unannotated)
    (Sample.pyfirehose_args 110 100)
  = ([EvAuthRequest; EvLog LogInvalidPeriod], Return tt) /\
  ~ offline (trace (Pyfirehose.script (Sample.pyfirehose_env Sample.unannotated)
                      (Sample.pyfirehose_args 110 100))).
Proof.
  split; [simpl; lia |]. split; [reflexivity |].
  intros H. apply Forall_inv in H as [H _]. discriminate H.
Qed.

(** C3 (amended).  For a period with [end < start]:
    - the script of [main.py] is ended by the argument parser with exit
      status 2 before any network activity and any output;
    - [main()] of [pyfirehose] returns 1, after the token query made when
      the module was loaded and, if a token was obtained, with the
      invalid-period error logged; no channel or stream is opened and no
      output file is written. *)
Theorem invalid_period_is_rejected {Block Blob : Type}
    (env : @MainPy.environment Block)
    (load : string -> string -> result (Signature.candidate Block Blob))
    (args : MainPy.arguments)
    (penv : @Pyfirehose.environment Block Blob) (pargs : Pyfirehose.arguments) :
  MainPy.block_end args < MainPy.block_start args ->
  Pyfirehose.end_ pargs < Pyfirehose.start pargs ->
  (MainPy.script env load args
   = ([EvUsageError "block_start must be less than or equal to block_end"],
      Raise (SystemExit 2)) /\
   exit_status (outcome (MainPy.script env load args)) = 2 /\
   offline (trace (MainPy.script env load args))) /\
  (outcome (Pyfirehose.main penv pargs) = Return 1 /\
   trace (Pyfirehose.script penv pargs)
   = EvAuthRequest
       :: (if truthy (Pyfirehose.JWT penv) then [EvLog LogInvalidPeriod] else []) /\
   no_stream_no_file (trace (Pyfirehose.script penv pargs))).
Proof.
  intros Hm Hp. split.
  - assert (Hs : MainPy.script env load args
                 = ([EvUsageError "block_start must be less than or equal to block_end"],
                    Raise (SystemExit 2))).
    { unfold MainPy.script.
      destruct (Z.ltb_spec (MainPy.block_end args) (MainPy.block_start args)); [| lia].
      reflexivity. }
    rewrite Hs. split; [done |]. split; [done |].
    repeat constructor.
  - unfold Pyfirehose.script, Pyfirehose.main, Pyfirehose.get_auth_token.
    destruct (truthy (Pyfirehose.JWT penv)); simpl.
    + destruct (Z.ltb_spec (Pyfirehose.end_ pargs) (Pyfirehose.start pargs)); [| lia].
      simpl. split; [done |]. split; [done |]. repeat constructor.
    + split; [done |]. split; [done |]. repeat constructor.
Qed.

Lemma invalid_period_is_rejected_witness :
  (MainPy.script Sample.env (fun _ _ => Return Sample.unannotated) (Sample.args 110 100)
   = ([EvUsageError "block_start must be less than or equal to block_end"],
      Raise (SystemExit 2)) /\
   exit_status (outcome (MainPy.script Sample.env (fun _ _ => Return Sample.unannotated)
                           (Sample.args 110 100))) = 2 /\
   offline (trace (MainPy.script Sample.env (fun _ _ => Return Sample.unannotated)
                     (Sample.args 110 100)))) /\
  (outcome (Pyfirehose.main (Sample.pyfirehose_env Sample.unannotated)
              (Sample.pyfirehose_args 110 100)) = Return 1 /\
   trace (Pyfirehose.script (Sample.pyfirehose_env Sample.unannotated)
            (Sample.pyfirehose_args 110 100))
   = [EvAuthRequest; EvLog LogInvalidPeriod] /\
   no_stream_no_file (trace (Pyfirehose.script (Sample.pyfirehose_env Sample.unannotated)
                               (Sample.pyfirehose_args 110 100)))).
Proof.
  apply (invalid_period_is_rejected Sample.env (fun _ _ => Return Sample.unannotated)
           (Sample.args 110 100) (Sample.pyfirehose_env Sample.unannotated)
           (Sample.pyfirehose_args 110 100)); simpl; lia.
Defined.

(** C8 (as stated, refuted).  In [pyfirehose] the token has been queried
    when the incompatible signature is detected. *)
Lemma pyfirehose_queries_token_before_signature_check :
  pyfirehose_checks (Sample.pyfirehose_env Sample.eager)
    (Sample.pyfirehose_args 100 110) Sample.eager /\
  Signature.fully_annotated_incompatible Sample.eager /\
  Pyfirehose.script (Sample.pyfirehose_env Sample.eager) (Sample.pyfirehose_args 100 110)
  = ([EvAuthRequest; EvLog LogLoadFailed], Raise (TypeError Signature.incompatible_msg)) /\
  ~ offline (trace (Pyfirehose.script (Sample.pyfirehose_env Sample.eager)
                      (Sample.pyfirehose_args 100 110))).
Proof.
  split; [| split; [| split]].
  - split; [reflexivity |]. split; [simpl; lia |]. split; [reflexivity |].
    eexists _, _. split; reflexivity.
  - split.
    + intros [H | H]; [discriminate H |].
      simpl in H. destruct H as [H | []]. discriminate H.
    + right. right. reflexivity.
  - reflexivity.
  - intros H. apply Forall_inv in H as [H _]. discriminate H.
Qed.

(** C8 (amended).  For a candidate that reaches the signature check:
    - if its signature is partially annotated, a warning is logged, the
      compatibility check is skipped and the run goes on ([run] in
      [main.py], the streaming of [asyncio_main] in [pyfirehose]);
    - if it is fully annotated but incompatible, the script of [main.py]
      exits with status 1 before any network activity, and [pyfirehose]
      ends with the [TypeError] (exit status 1) after the token query made
      when the module was loaded, before any channel or stream is opened;
      no output file is written. *)
Theorem signature_check_outcomes {Block Blob : Type}
    (env : @MainPy.environment Block)
    (load : string -> string -> result (Signature.candidate Block Blob))
    (args : MainPy.arguments)
    (penv : @Pyfirehose.environment Block Blob) (pargs : Pyfirehose.arguments)
    (c : Signature.candidate Block Blob) :
  main_py_checks load args c ->
  pyfirehose_checks penv pargs c ->
  (Signature.partially_annotated (Signature.signature_of c) ->
   warns_and_continues env load args penv pargs c) /\
  (Signature.fully_annotated_incompatible c ->
   fails_at_startup env load args penv pargs).
Proof.
  intros (Hperiod & Hcheck & m & f & Hpath & Hload)
         (Hjwt & Hperiod' & Hcheck' & m' & f' & Hpath' & Hload').
  assert (Hlt : (MainPy.block_end args <? MainPy.block_start args) = false)
    by (apply Z.ltb_ge; lia).
  assert (Hlt' : (Pyfirehose.end_ pargs <? Pyfirehose.start pargs) = false)
    by (apply Z.ltb_ge; lia).
  split.
  - intros Hpartial. unfold warns_and_continues. cbv zeta.
    set (run := MainPy.run env _ _ _ _ _ _ _ _).
    assert (Hm : MainPy.script env load args
                 = (EvLog LogSignatureUnchecked :: trace run, outcome run)).
    { unfold MainPy.script, MainPy.load_processor.
      rewrite Hlt, Hpath. simpl. rewrite Hload, Hcheck. simpl.
      rewrite check_partially_annotated by done. simpl.
      fold run. by destruct run as [t r]. }
    rewrite Hm. split; [done |]. split; [done |].
    unfold Pyfirehose.script, Pyfirehose.get_auth_token, Pyfirehose.main,
      Pyfirehose.load_processor.
    rewrite Hjwt, Hlt', Hpath'. simpl. rewrite Hload', Hcheck'. simpl.
    rewrite check_partially_annotated by done. simpl.
    destruct (Pyfirehose.asyncio_main _ _ _ _ _ _) as [t [raw|e]]; simpl; [| done].
    by rewrite app_nil_r.
  - intros Hinc. unfold fails_at_startup. split.
    + assert (Hm : MainPy.script env load args
                   = ([EvLog LogLoadFailed], Raise (SystemExit 1))).
      { unfold MainPy.script, MainPy.load_processor.
        rewrite Hlt, Hpath. simpl. rewrite Hload, Hcheck. simpl.
        rewrite check_incompatible by done. reflexivity. }
      rewrite Hm. split; [done |]. split; [done |]. repeat constructor.
    + assert (Hp : Pyfirehose.script penv pargs
                   = ([EvAuthRequest; EvLog LogLoadFailed],
                      Raise (TypeError Signature.incompatible_msg))).
      { unfold Pyfirehose.script, Pyfirehose.get_auth_token, Pyfirehose.main,
          Pyfirehose.load_processor.
        rewrite Hjwt, Hlt', Hpath'. simpl. rewrite Hload', Hcheck'. simpl.
        rewrite check_incompatible by done. reflexivity. }
      rewrite Hp. split; [done |]. split; [done |]. repeat constructor.
Qed.

Lemma signature_check_outcomes_witness :
  warns_and_continues Sample.env (fun _ _ => Return Sample.unannotated)
    (Sample.args 100 110) (Sample.pyfirehose_env Sample.unannotated)
    (Sample.pyfirehose_args 100 110) Sample.unannotated /\
  fails_at_startup Sample.env (fun _ _ => Return Sample.eager)
    (Sample.args 100 110) (Sample.pyfirehose_env Sample.eager)
    (Sample.pyfirehose_args 100 110).
Proof.
  split.
  - apply (signature_check_outcomes Sample.env (fun _ _ => Return Sample.unannotated)
             (Sample.args 100 110) (Sample.pyfirehose_env Sample.unannotated)
             (Sample.pyfirehose_args 100 110) Sample.unannotated).
    + split; [simpl; lia |]. split; [reflexivity |].
      eexists _, _. split; reflexivity.
    + split; [reflexivity |]. split; [simpl; lia |]. split; [reflexivity |].
      eexists _, _. split; reflexivity.
    + right. simpl. left. reflexivity.
  - apply (signature_check_outcomes Sample.env (fun _ _ => Return Sample.eager)
             (Sample.args 100 110) (Sample.pyfirehose_env Sample.eager)
             (Sample.pyfirehose_args 100 110) Sample.eager).
    + split; [simpl; lia |]. split; [reflexivity |].
      eexists _, _. split; reflexivity.
    + split; [reflexivity |]. split; [simpl; lia |]. split; [reflexivity |].
      eexists _, _. split; reflexivity.
    + split.
      * intros [H | H]; [discriminate H |].
        simpl in H. destruct H as [H | []]. discriminate H.
      * right. right. reflexivity.
Defined.

(** * Further properties of the code *)

(** ** The splitter on every input *)

Lemma clamp_tasks_min d m : MainPy.clamp_tasks d m = Z.min d m.
Proof. unfold MainPy.clamp_tasks. destruct (Z.ltb_spec d m); lia. Qed.

Lemma range_nonpositive n : n <= 0 -> range n = [].
Proof. intros Hn. unfold range. by replace (Z.to_nat n) with 0%nat by lia. Qed.

(** X1.  The splitter on every input: a reversed period or a negative
    task limit gives no sub-range at all; otherwise an empty period or a
    task limit of zero makes the chunk computation raise
    [ZeroDivisionError]; otherwise the period is cut into
    [min(max_tasks, period_end - period_start)] sub-ranges. *)
Theorem task_ranges_cases (period_start period_end max_tasks : Z) :
  MainPy.task_ranges period_start period_end max_tasks =
    if decide (period_end < period_start \/ max_tasks < 0) then Return []
    else if decide (period_start = period_end \/ max_tasks = 0)
         then Raise ZeroDivisionError
         else
           let n := Z.min max_tasks (period_end - period_start) in
           Return (MainPy.task_bounds period_start period_end n
                     ((period_end - period_start) / n) <$> range n).
Proof.
  unfold MainPy.task_ranges, floordiv. rewrite clamp_tasks_min.
  repeat case_decide.
  - destruct (Z.eqb_spec (Z.min (period_end - period_start) max_tasks) 0); [lia |].
    simpl. by rewrite range_nonpositive by lia.
  - destruct (Z.eqb_spec (Z.min (period_end - period_start) max_tasks) 0); [done | lia].
  - destruct (Z.eqb_spec (Z.min (period_end - period_start) max_tasks) 0); [lia |].
    simpl. by rewrite (Z.min_comm max_tasks).
Qed.

(** X2.  On a non-empty period with at least one task allowed, every
    sub-range but the last is exactly [chunk] blocks wide and the last
    one is [chunk] plus the remainder of the division, a remainder smaller
    than the number of sub-ranges; no sub-range is empty. *)
Theorem task_ranges_widths (period_start period_end max_tasks : Z)
    (rs : list (Z * Z)) (i : nat) (r : Z * Z) :
  period_start < period_end ->
  1 <= max_tasks ->
  MainPy.task_ranges period_start period_end max_tasks = Return rs ->
  rs !! i = Some r ->
  let n := Z.min max_tasks (period_end - period_start) in
  let chunk := (period_end - period_start) / n in
  Z.of_nat (length rs) = n /\
  1 <= chunk /\
  snd r - fst r =
    (if decide (Z.of_nat i = n - 1)
     then chunk + (period_end - period_start) `mod` n else chunk) /\
  0 <= (period_end - period_start) `mod` n < n.
Proof.
  intros Hlt Hm Hrs Hr n chunk.
  rewrite task_ranges_nonempty_period in Hrs by lia.
  rewrite clamp_tasks_min, Z.min_comm in Hrs.
  fold n chunk in Hrs. injection Hrs as <-.
  assert (Hn : 1 <= n <= period_end - period_start) by (subst n; lia).
  pose proof (chunk_bounds _ _ Hn) as [Hc _]. fold chunk in Hc.
  pose proof (Z.div_mod (period_end - period_start) n ltac:(lia)) as Hdm.
  pose proof (Z.mod_pos_bound (period_end - period_start) n ltac:(lia)) as Hmod.
  fold chunk in Hdm.
  apply task_bounds_lookup in Hr as [Hi ->].
  split; [rewrite length_fmap, range_length; lia |].
  split; [done |]. split; [| done].
  destruct (decide (Z.of_nat i = n - 1)) as [Hlast|Hlast];
    unfold MainPy.task_bounds; simpl;
    destruct (Z.ltb_spec (Z.of_nat i) (n - 1)); lia.
Qed.

Lemma task_ranges_widths_witness :
  Z.of_nat (length [(100, 103); (103, 106); (106, 110)]) = 3 /\
  1 <= 3 /\
  110 - 106 = 3 + 1 /\
  0 <= 1 < 3.
Proof.
  apply (task_ranges_widths 100 110 3 [(100, 103); (103, 106); (106, 110)] 2 (106, 110));
    [lia | lia | vm_compute; reflexivity | reflexivity].
Defined.

(** ** [run] on every input *)

Section RunCases.
Context {Block Blob : Type}.
Implicit Types (env : @MainPy.environment Block).
Implicit Types (block_processor : Block -> generated Blob).

Lemma existsb_file_write_streams (rs : list (Z * Z)) :
  existsb is_file_write
    ((fun r => EvStreamOpen (Blob:=Blob) (fst r) (snd r)) <$> rs) = false.
Proof. induction rs as [|r rs IH]; [done | exact IH]. Qed.

Lemma streams_of_streams (rs : list (Z * Z)) (t : list (event Blob)) :
  streams_of (((fun r => EvStreamOpen (fst r) (snd r)) <$> rs) ++ t)
  = rs ++ streams_of t.
Proof.
  induction rs as [|[s e] rs IH]; [done |].
  rewrite fmap_cons. simpl. by rewrite IH.
Qed.

(** The four ways [run] can end. *)
Lemma run_cases env accounts ps pe block_processor chain m inc exc :
  let n := MainPy.clamp_tasks (pe - ps) m in
  let rs := MainPy.task_bounds ps pe n ((pe - ps) / n) <$> range n in
  let opened := EvAuthRequest :: EvChannelOpen
                  :: ((fun r => EvStreamOpen (Blob:=Blob) (fst r) (snd r)) <$> rs) in
  let r := MainPy.run env accounts ps pe block_processor chain m inc exc in
  (MainPy.status_code env <> 200 /\
   r = ([EvAuthRequest; EvLog LogAuthFailed], Raise (SystemExit 1))) \/
  (MainPy.status_code env = 200 /\ n = 0 /\
   r = ([EvAuthRequest], Raise ZeroDivisionError)) \/
  (MainPy.status_code env = 200 /\ n <> 0 /\ exists e, r = (opened, Raise e)) \/
  (MainPy.status_code env = 200 /\ n <> 0 /\
   exists data,
     r = (opened ++ [EvFileWrite (MainPy.filename chain accounts ps pe) data],
          Return tt)).
Proof.
  intros n rs opened r. subst r.
  destruct (Z.eqb_spec (MainPy.status_code env) 200) as [Hs|Hs].
  - right. rewrite run_unfold by done. fold n. unfold floordiv.
    destruct (Z.eqb_spec n 0) as [Hn|Hn]; [left; done |].
    right. rewrite create_tasks_eq. fold rs.
    destruct (MainPy.gather _ []) as [data|e].
    + right. split; [done |]. split; [done |]. by exists data.
    + left. split; [done |]. split; [done |]. by exists e.
  - left. split; [done |]. unfold MainPy.run.
    destruct (Z.eqb_spec (MainPy.status_code env) 200); [done | reflexivity].
Qed.

End RunCases.

(** X3.  When the authentication endpoint does not answer with status
    200, [run] logs the failure and exits with status 1: no channel or
    stream is opened and nothing is written. *)
Theorem run_authentication_failure {Block Blob : Type} (env : @MainPy.environment Block)
    (accounts : list string) (period_start period_end : Z)
    (block_processor : Block -> generated Blob) (chain : string) (max_tasks : Z)
    (custom_include_expr custom_exclude_expr : option string) :
  MainPy.status_code env <> 200 ->
  MainPy.run env accounts period_start period_end block_processor chain max_tasks
    custom_include_expr custom_exclude_expr
  = ([EvAuthRequest; EvLog LogAuthFailed], Raise (SystemExit 1)).
Proof.
  intros Hs.
  destruct (run_cases env accounts period_start period_end block_processor chain
              max_tasks custom_include_expr custom_exclude_expr)
    as [[_ H] | [[? _] | [[? _] | [? _]]]]; done.
Qed.

Lemma run_authentication_failure_witness :
  MainPy.run Cases.denied ["alice"%string] 100 110 Sample.one_per_block "eos" 2 None None
  = ([EvAuthRequest; EvLog LogAuthFailed], Raise (SystemExit 1)).
Proof.
  apply (run_authentication_failure Cases.denied ["alice"%string] 100 110
           Sample.one_per_block "eos" 2 None None).
  simpl. lia.
Defined.




(** X5.  With a negative task limit, a period that is not reversed and
    the token obtained, [run] opens the channel, creates no worker and
    dumps no row: the output file is opened and left empty, and [run]
    ends normally without having streamed a block. *)
Theorem run_without_workers {Block Blob : Type} (env : @MainPy.environment Block)
    (accounts : list string) (period_start period_end : Z)
    (block_processor : Block -> generated Blob) (chain : string) (max_tasks : Z)
    (custom_include_expr custom_exclude_expr : option string) :
  MainPy.status_code env = 200 ->
  period_start <= period_end ->
  max_tasks < 0 ->
  MainPy.run env accounts period_start period_end block_processor chain max_tasks
    custom_include_expr custom_exclude_expr
  = ([EvAuthRequest; EvChannelOpen;
      EvFileWrite (MainPy.filename chain accounts period_start period_end) []],
     Return tt).
Proof.
  intros Hs Hperiod Hneg. rewrite run_unfold by done.
  rewrite clamp_tasks_min. unfold floordiv.
  destruct (Z.eqb_spec (Z.min (period_end - period_start) max_tasks) 0); [lia |].
  rewrite range_nonpositive by lia. reflexivity.
Qed.

Lemma run_without_workers_witness :
  MainPy.run Sample.env ["alice"%string] 100 110 Sample.one_per_block "eos" (-4) None None
  = ([EvAuthRequest; EvChannelOpen;
      EvFileWrite (MainPy.filename "eos" ["alice"%string] 100 110) []],
     Return tt).
Proof.
  apply (run_without_workers Sample.env ["alice"%string] 100 110
           Sample.one_per_block "eos" (-4) None None); [reflexivity | lia | lia].
Defined.

(** X6.  Every stream [run] opens is a non-empty sub-range of the
    period, and when it opens any stream their number is at most
    [max_tasks]. *)
Theorem run_streams_bounded {Block Blob : Type} (env : @MainPy.environment Block)
    (accounts : list string) (period_start period_end : Z)
    (block_processor : Block -> generated Blob) (chain : string) (max_tasks : Z)
    (custom_include_expr custom_exclude_expr : option string) (r : Z * Z) :
  r ∈ streams_of (trace (MainPy.run env accounts period_start period_end
                           block_processor chain max_tasks
                           custom_include_expr custom_exclude_expr)) ->
  period_start <= fst r < snd r /\ snd r <= period_end /\
  Z.of_nat (length (streams_of (trace (MainPy.run env accounts period_start period_end
                                         block_processor chain max_tasks
                                         custom_include_expr custom_exclude_expr))))
    <= max_tasks.
Proof.
  intros Hr.
  pose proof (run_cases env accounts period_start period_end block_processor chain
                max_tasks custom_include_expr custom_exclude_expr) as Hcases.
  cbv zeta in Hcases.
  set (n := MainPy.clamp_tasks (period_end - period_start) max_tasks) in *.
  set (rs := MainPy.task_bounds period_start period_end n
               ((period_end - period_start) / n) <$> range n) in *.
  assert (Hstreams :
    streams_of (trace (MainPy.run env accounts period_start period_end
                         block_processor chain max_tasks
                         custom_include_expr custom_exclude_expr)) = [] \/
    streams_of (trace (MainPy.run env accounts period_start period_end
                         block_processor chain max_tasks
                         custom_include_expr custom_exclude_expr)) = rs).
  { destruct Hcases as [[_ H] | [(_ & _ & H) | [(_ & _ & e & H) | (_ & _ & data & H)]]];
      rewrite H; unfold trace; simpl.
    - by left.
    - by left.
    - right. rewrite <- (app_nil_r (_ <$> rs)), streams_of_streams. simpl.
      by rewrite app_nil_r.
    - right. rewrite streams_of_streams. simpl. by rewrite app_nil_r. }
  destruct Hstreams as [Hnil | Hrs]; rewrite ?Hnil, ?Hrs in Hr |- *.
  { by apply elem_of_nil in Hr. }
  apply list_elem_of_lookup in Hr as [i Hi].
  apply task_bounds_lookup in Hi as [Hi ->].
  assert (Hn : 1 <= n <= period_end - period_start /\ n <= max_tasks).
  { subst n. rewrite clamp_tasks_min in *. lia. }
  destruct Hn as [Hn Hnm].
  pose proof (chunk_bounds _ _ Hn) as [Hc Hnc].
  subst rs. rewrite length_fmap, range_length.
  unfold MainPy.task_bounds. simpl.
  destruct (Z.ltb_spec (Z.of_nat i) (n - 1)); split; try nia; split; nia.
Qed.

Lemma run_streams_bounded_witness :
  100 <= 105 < 110 /\ 110 <= 110 /\
  Z.of_nat (length (streams_of (trace (MainPy.run Sample.env ["alice"%string] 100 110
                                         Sample.one_per_block "eos" 2 None None))))
    <= 2.
Proof.
  apply (run_streams_bounded Sample.env ["alice"%string] 100 110
           Sample.one_per_block "eos" 2 None None (105, 110)).
  vm_compute. apply list_elem_of_In. right. left. reflexivity.
Defined.

Section MainWorker.
Context {Block Blob : Type}.
Implicit Types (env : @MainPy.environment Block).
Implicit Types (block_processor : Block -> generated Blob).

Lemma consume_responses block_processor (blocks : list Block) rest transactions :
  Forall (fun b => snd (block_processor b) = None) blocks ->
  MainPy.consume block_processor ((Response <$> blocks) ++ rest) transactions =
  MainPy.consume block_processor rest
    (transactions ++ flat_map (fun b => fst (block_processor b)) blocks).
Proof.
  intros Hok. revert transactions.
  induction Hok as [|b blocks Hb _ IH]; intros transactions; simpl.
  - by rewrite app_nil_r.
  - destruct (block_processor b) as [blobs [e|]]; simpl in *; [done |].
    by rewrite IH, app_assoc.
Qed.

End MainWorker.

(** X7.  The worker of [main.py] catches nothing: when its stream breaks
    after some blocks it raises the [AioRpcError] itself (no
    [BlockStreamException], the records gathered so far are lost), and
    when the block processor raises on a block the worker raises that
    exception. *)
Theorem main_worker_failures {Block Blob : Type} (env : @MainPy.environment Block)
    (accounts : list string) (block_processor : Block -> generated Blob)
    (custom_include_expr custom_exclude_expr : option string) (start end_ : Z)
    (blocks : list Block) (failure : stream_item Block) (rest : list (stream_item Block))
    (e : exn) :
  MainPy.Blocks env (MainPy.request accounts custom_include_expr custom_exclude_expr
                       start end_)
  = (Response <$> blocks) ++ failure :: rest ->
  Forall (fun b => snd (block_processor b) = None) blocks ->
  (exists details, failure = RpcFailure details /\ e = AioRpcError details) \/
  (exists b, failure = Response b /\ snd (block_processor b) = Some e) ->
  MainPy.stream_blocks env accounts block_processor custom_include_expr
    custom_exclude_expr start end_
  = Raise e.
Proof.
  intros Hs Hok Hfail. unfold MainPy.stream_blocks. rewrite Hs.
  rewrite consume_responses by done.
  destruct Hfail as [(details & -> & ->) | (b & -> & Hb)]; simpl; [done |].
  destruct (block_processor b) as [blobs [e'|]]; simpl in *; congruence.
Qed.

Lemma main_worker_failures_witness :
  MainPy.stream_blocks Cases.flaky ["alice"%string] Sample.one_per_block None None
    105 110
  = Raise (AioRpcError "Unavailable").
Proof.
  apply (main_worker_failures Cases.flaky ["alice"%string] Sample.one_per_block
           None None 105 110 [105; 106] (RpcFailure "Unavailable") []).
  - reflexivity.
  - repeat constructor.
  - left. by exists "Unavailable"%string.
Defined.

(** X8.  When no worker ends the interpreter ([SystemExit]), the run is
    decided by the first worker, in index order, that failed: [run]
    raises the exception of that worker once every stream has been
    opened, whether the later workers returned or failed, and does not
    reach the writing of the output file. *)
Theorem run_propagates_first_failure {Block Blob : Type}
    (env : @MainPy.environment Block)
    (accounts : list string) (period_start period_end : Z)
    (block_processor : Block -> generated Blob) (chain : string) (max_tasks : Z)
    (custom_include_expr custom_exclude_expr : option string)
    (before : list (Z * Z)) (outs : list (list Blob)) (failed : Z * Z) (e : exn)
    (after : list (Z * Z)) :
  MainPy.status_code env = 200 ->
  MainPy.task_ranges period_start period_end max_tasks
  = Return (before ++ failed :: after) ->
  Forall2 (fun r out =>
             MainPy.stream_blocks env accounts block_processor
               custom_include_expr custom_exclude_expr (fst r) (snd r) = Return out)
          before outs ->
  MainPy.stream_blocks env accounts block_processor
    custom_include_expr custom_exclude_expr (fst failed) (snd failed) = Raise e ->
  is_Exception e = true ->
  Forall (fun r => forall code,
            MainPy.stream_blocks env accounts block_processor
              custom_include_expr custom_exclude_expr (fst r) (snd r)
            <> Raise (SystemExit code))
         after ->
  outcome (MainPy.run env accounts period_start period_end block_processor chain
             max_tasks custom_include_expr custom_exclude_expr) = Raise e /\
  streams_of (trace (MainPy.run env accounts period_start period_end block_processor
                       chain max_tasks custom_include_expr custom_exclude_expr))
  = before ++ failed :: after /\
  existsb is_file_write
    (trace (MainPy.run env accounts period_start period_end block_processor
              chain max_tasks custom_include_expr custom_exclude_expr)) = false.
Proof.
  intros Hs Hrs Hbefore Hfailed _ _.
  rewrite (run_first_failure env accounts period_start period_end block_processor
             chain max_tasks custom_include_expr custom_exclude_expr
             before outs failed e after Hs Hrs Hbefore Hfailed).
  unfold outcome, trace. simpl. split; [done |]. split.
  - rewrite <- (app_nil_r (_ <$> _)), streams_of_streams. simpl. by rewrite app_nil_r.
  - apply existsb_file_write_streams.
Qed.

Lemma run_propagates_first_failure_witness :
  outcome (MainPy.run Cases.stormy ["alice"%string] 100 110 Sample.one_per_block "eos" 3
             None None) = Raise (AioRpcError "Unavailable") /\
  streams_of (trace (MainPy.run Cases.stormy ["alice"%string] 100 110
                       Sample.one_per_block "eos" 3 None None))
  = [(100, 103)] ++ (103, 106) :: [(106, 110)] /\
  existsb is_file_write
    (trace (MainPy.run Cases.stormy ["alice"%string] 100 110
              Sample.one_per_block "eos" 3 None None)) = false.
Proof.
  apply (run_propagates_first_failure Cases.stormy ["alice"%string] 100 110
           Sample.one_per_block "eos" 3 None None
           [(100, 103)] [[100; 101; 102]] (103, 106)
           (AioRpcError "Unavailable") [(106, 110)]).
  - reflexivity.
  - vm_compute. reflexivity.
  - repeat constructor.
  - reflexivity.
  - reflexivity.
  - constructor; [| constructor]. intros code H. vm_compute in H. discriminate H.
Defined.

(** ** [process_blocks] and the worker of [common.py] *)

Section CommonFacts.
Context {Block Blob : Type}.
Implicit Types (block_processor : Block -> generated Blob).
Implicit Types (blocks raw : list Block) (rest : list (stream_item Block)).

Lemma flat_map_length_bound block_processor (c : nat) blocks :
  (forall b, (length (fst (block_processor b)) <= c)%nat) ->
  (length (flat_map (fun b => fst (block_processor b)) blocks) <= c * length blocks)%nat.
Proof.
  intros Hc. induction blocks as [|b blocks IH]; simpl; [lia |].
  rewrite length_app. specialize (Hc b). lia.
Qed.

Lemma process_blocks_from_acc block_processor raw (data : list Blob) :
  Common.process_blocks_from data raw block_processor =
  bind (Common.process_blocks_from [] raw block_processor)
       (fun rows => Return (data ++ rows)).
Proof.
  revert data. induction raw as [|b raw IH]; intros data; simpl.
  - by rewrite app_nil_r.
  - destruct (block_processor b) as [blobs [e|]]; [done |].
    rewrite IH, (IH blobs). simpl.
    destruct (Common.process_blocks_from [] raw block_processor); simpl; [| done].
    by rewrite app_assoc.
Qed.

Lemma consume_raw_Exhausted (responses : list (stream_item Block)) current
    (data : list Block) current' data' :
  Common.consume_raw responses current data = Common.Exhausted current' data' ->
  exists blocks,
    responses = Response <$> blocks /\
    data' = data ++ blocks /\
    current' = current + Z.of_nat (length blocks).
Proof.
  revert current data.
  induction responses as [|[b|d] responses IH]; intros current data H; simpl in H.
  - exists []. simplify_eq. split; [done |]. split; [by rewrite app_nil_r | simpl; lia].
  - apply IH in H as (blocks & -> & -> & ->). exists (b :: blocks).
    split; [done |]. split; [by rewrite <- app_assoc | simpl; lia].
  - done.
Qed.

Lemma consume_parsing_Exhausted block_processor
    (responses : list (stream_item Block)) current (data : list Blob) current' rows :
  Common.consume_parsing block_processor responses current data
  = Common.Exhausted current' rows ->
  exists blocks,
    responses = Response <$> blocks /\
    Forall (fun b => snd (block_processor b) = None) blocks /\
    rows = data ++ flat_map (fun b => fst (block_processor b)) blocks /\
    current' = current + Z.of_nat (length blocks).
Proof.
  revert current data.
  induction responses as [|[b|d] responses IH]; intros current data H; simpl in H.
  - exists []. simplify_eq. split; [done |]. split; [done |].
    split; [by rewrite app_nil_r | simpl; lia].
  - destruct (block_processor b) as [blobs [e|]] eqn:Hb; [done |].
    apply IH in H as (blocks & -> & Hok & -> & ->). exists (b :: blocks).
    split; [done |]. split; [constructor; [by rewrite Hb | done] |].
    split; [simpl; by rewrite Hb, app_assoc | simpl; lia].
  - done.
Qed.

(** The loop that parses as it streams, over a stream that does not
    break, does what [process_blocks] does over the blocks. *)
Lemma consume_parsing_process block_processor raw current (data : list Blob) :
  match Common.process_blocks_from data raw block_processor with
  | Return rows =>
      Common.consume_parsing block_processor (Response <$> raw) current data
      = Common.Exhausted (current + Z.of_nat (length raw)) rows
  | Raise e =>
      exists current' data',
        Common.consume_parsing block_processor (Response <$> raw) current data
        = Common.Raised e current' data'
  end.
Proof.
  revert current data. induction raw as [|b raw IH]; intros current data; simpl.
  - by rewrite Z.add_0_r.
  - destruct (block_processor b) as [blobs [e|]]; [by eexists _, _ |].
    specialize (IH (current + 1) (data ++ blobs)).
    destruct (Common.process_blocks_from _ raw block_processor); [| exact IH].
    etrans; [exact IH |]. f_equal. lia.
Qed.

(** The counter moves forward by at most one per response. *)
Lemma consume_parsing_counter block_processor (responses : list (stream_item Block))
    current (data : list Blob) :
  match Common.consume_parsing block_processor responses current data with
  | Common.Exhausted current' _ => current' = current + Z.of_nat (length responses)
  | Common.Raised _ current' _ =>
      current <= current' <= current + Z.of_nat (length responses)
  end.
Proof.
  revert current data.
  induction responses as [|[b|d] responses IH]; intros current data; simpl; [lia | | lia].
  destruct (block_processor b) as [blobs [e|]]; [lia |].
  specialize (IH (current + 1) (data ++ blobs)).
  destruct (Common.consume_parsing _ _ _ _); lia.
Qed.

Lemma consume_raw_counter (responses : list (stream_item Block)) current
    (data : list Block) :
  match Common.consume_raw responses current data with
  | Common.Exhausted current' _ => current' = current + Z.of_nat (length responses)
  | Common.Raised _ current' _ =>
      current <= current' <= current + Z.of_nat (length responses)
  end.
Proof.
  revert current data.
  induction responses as [|[b|d] responses IH]; intros current data; simpl; [lia | | lia].
  specialize (IH (current + 1) (data ++ [b])).
  destruct (Common.consume_raw _ _ _); lia.
Qed.

End CommonFacts.

(** X9.  A block processor that yields at most [c] records per block
    gives at most [c] records per block processed: for [process_blocks]
    and for both workers when they return. *)
Theorem records_bounded_by_blocks {Block Blob : Type}
    (env : @MainPy.environment Block) (stub_config : @Common.StubConfig Block)
    (accounts : list string) (custom_include_expr custom_exclude_expr : option string)
    (kwargs : gmap string Common.pyval) (start end_ : Z)
    (block_processor : Block -> generated Blob) (c : nat) :
  (forall b, (length (fst (block_processor b)) <= c)%nat) ->
  (forall raw_blocks data,
     Common.process_blocks raw_blocks block_processor = Return data ->
     (length data <= c * length raw_blocks)%nat) /\
  (forall data,
     MainPy.stream_blocks env accounts block_processor custom_include_expr
       custom_exclude_expr start end_ = Return data ->
     (length data
      <= c * length (MainPy.Blocks env (MainPy.request accounts custom_include_expr
                                          custom_exclude_expr start end_)))%nat) /\
  (forall data,
     outcome (Common.stream_blocks stub_config start end_ (Some block_processor) kwargs)
     = Return (Common.Parsed data) ->
     (length data
      <= c * length (Common.Blocks stub_config
                       (Common.request_parameters start end_
                          (Common.REQUEST_PARAMETERS stub_config) kwargs)))%nat).
Proof.
  intros Hc. split; [| split].
  - intros raw data H. apply process_blocks_from_Return in H as [_ ->].
    by apply flat_map_length_bound.
  - intros data H. unfold MainPy.stream_blocks in H.
    apply consume_Return in H as (blocks & -> & _ & ->).
    rewrite length_fmap. by apply flat_map_length_bound.
  - intros data H. unfold Common.stream_blocks, outcome in H. simpl in H.
    set (responses := Common.Blocks _ _) in *.
    destruct (Common.consume_parsing _ responses start []) as [cur rows|e cur rows] eqn:Hl.
    + simpl in H. simplify_eq.
      apply consume_parsing_Exhausted in Hl as (blocks & -> & _ & -> & _).
      rewrite length_fmap. by apply flat_map_length_bound.
    + unfold Common.except_rpc in H. destruct e; simpl in H; done.
Qed.

Lemma records_bounded_by_blocks_witness :
  (forall raw_blocks data,
     Common.process_blocks raw_blocks Cases.even_only = Return data ->
     (length data <= 1 * length raw_blocks)%nat) /\
  (forall data,
     MainPy.stream_blocks Sample.env ["alice"%string] Cases.even_only None None 100 105
     = Return data ->
     (length data
      <= 1 * length (MainPy.Blocks Sample.env
                       (MainPy.request ["alice"%string] None None 100 105)))%nat) /\
  (forall data,
     outcome (Common.stream_blocks Sample.stub_config 100 105 (Some Cases.even_only) ∅)
     = Return (Common.Parsed data) ->
     (length data
      <= 1 * length (Common.Blocks Sample.stub_config
                       (Common.request_parameters 100 105
                          (Common.REQUEST_PARAMETERS Sample.stub_config) ∅)))%nat).
Proof.
  apply (records_bounded_by_blocks Sample.env Sample.stub_config ["alice"%string]
           None None ∅ 100 105 Cases.even_only 1).
  intros b. unfold Cases.even_only. destruct (Z.even b); simpl; lia.
Defined.

Lemma process_blocks_from_app {Block Blob : Type}
    (block_processor : Block -> generated Blob) (raw_blocks more_blocks : list Block)
    (acc : list Blob) :
  Common.process_blocks_from acc (raw_blocks ++ more_blocks) block_processor =
  bind (Common.process_blocks_from acc raw_blocks block_processor) (fun data =>
  bind (Common.process_blocks_from [] more_blocks block_processor) (fun more =>
  Return (data ++ more))).
Proof.
  revert acc. induction raw_blocks as [|b raw IH]; intros acc; simpl.
  - apply process_blocks_from_acc.
  - destruct (block_processor b) as [blobs [e|]]; [done |]. apply IH.
Qed.

(** X10.  [process_blocks] distributes over concatenation: processing the
    raw blocks of several workers put end to end gives the parsed data of
    each, end to end, and fails with the first failure. *)
Theorem process_blocks_app {Block Blob : Type}
    (block_processor : Block -> generated Blob) (raw_blocks more_blocks : list Block) :
  Common.process_blocks (raw_blocks ++ more_blocks) block_processor =
  bind (Common.process_blocks raw_blocks block_processor) (fun data =>
  bind (Common.process_blocks more_blocks block_processor) (fun more =>
  Return (data ++ more))).
Proof. unfold Common.process_blocks. apply process_blocks_from_app. Qed.

(** X11.  Parsing while streaming and parsing after streaming agree: if
    the worker without a block processor returns the raw blocks [raw],
    the worker with a block processor returns exactly what
    [process_blocks] makes of [raw], and an exception of the block
    processor other than [AioRpcError] leaves both the same way. *)
Theorem inline_parsing_agrees {Block Blob : Type}
    (stub_config : @Common.StubConfig Block) (start end_ : Z)
    (block_processor : Block -> generated Blob)
    (kwargs : gmap string Common.pyval) (raw : list Block) :
  outcome (Common.stream_blocks (Blob:=Blob) stub_config start end_ None kwargs)
  = Return (Common.RawBlocks raw) ->
  (forall data,
     Common.process_blocks raw block_processor = Return data <->
     outcome (Common.stream_blocks stub_config start end_ (Some block_processor) kwargs)
     = Return (Common.Parsed data)) /\
  (forall e,
     Common.process_blocks raw block_processor = Raise e ->
     is_rpc_error e = false ->
     Common.stream_blocks stub_config start end_ (Some block_processor) kwargs
     = ([EvStreamOpen start end_], Raise e)).
Proof.
  intros Hraw. unfold Common.stream_blocks, outcome in *. simpl in *.
  set (responses := Common.Blocks _ _) in *.
  destruct (Common.consume_raw responses start []) as [cur blocks|e cur blocks] eqn:Hl.
  2: { unfold Common.except_rpc in Hraw. destruct e; simpl in Hraw; done. }
  apply consume_raw_Exhausted in Hl as (blocks' & Hresp & -> & ->).
  simpl in Hraw. injection Hraw as ->. rewrite Hresp.
  pose proof (consume_parsing_process block_processor raw start []) as Hp.
  unfold Common.process_blocks.
  destruct (Common.process_blocks_from [] raw block_processor) as [rows|e].
  - rewrite Hp. simpl. split.
    + intros data. split; intros H; by simplify_eq.
    + intros e H. done.
  - destruct Hp as (cur' & data' & Hp). rewrite Hp. split.
    + intros data. split; [done |].
      unfold Common.except_rpc. destruct e; simpl; done.
    + intros e' H Hne. simplify_eq.
      unfold Common.except_rpc. destruct e'; simpl in *; done.
Qed.

Lemma inline_parsing_agrees_witness :
  (forall data,
     Common.process_blocks (Sample.blocks_between 100 105) Cases.even_only = Return data <->
     outcome (Common.stream_blocks Sample.stub_config 100 105 (Some Cases.even_only) ∅)
     = Return (Common.Parsed data)) /\
  (forall e,
     Common.process_blocks (Sample.blocks_between 100 105) Cases.even_only = Raise e ->
     is_rpc_error e = false ->
     Common.stream_blocks Sample.stub_config 100 105 (Some Cases.even_only) ∅
     = ([EvStreamOpen 100 105], Raise e)).
Proof.
  apply (inline_parsing_agrees Sample.stub_config 100 105 Cases.even_only ∅
           (Sample.blocks_between 100 105)).
  vm_compute. reflexivity.
Defined.

(** X12.  When the block processor raises on a block, the worker of
    [common.py] lets the exception through as it is, nothing being
    logged, unless it is an [AioRpcError]: that one is taken for a failure
    of the stream and reported with the counter already advanced past the
    block in hand. *)
Theorem worker_processor_exception {Block Blob : Type}
    (stub_config : @Common.StubConfig Block) (start end_ : Z)
    (block_processor : Block -> generated Blob)
    (kwargs : gmap string Common.pyval)
    (blocks : list Block) (b : Block) (rest : list (stream_item Block)) (e : exn) :
  Common.Blocks stub_config
    (Common.request_parameters start end_ (Common.REQUEST_PARAMETERS stub_config) kwargs)
  = (Response <$> blocks) ++ Response b :: rest ->
  Forall (fun b => snd (block_processor b) = None) blocks ->
  snd (block_processor b) = Some e ->
  Common.stream_blocks stub_config start end_ (Some block_processor) kwargs
  = if is_rpc_error e
    then ([EvStreamOpen start end_;
           EvLog (LogBlockFailed (start + Z.of_nat (length blocks) + 1))],
          Raise (BlockStreamException start end_
                   (start + Z.of_nat (length blocks) + 1)))
    else ([EvStreamOpen start end_], Raise e).
Proof.
  intros Hs Hok Hb. unfold Common.stream_blocks. rewrite Hs.
  rewrite consume_parsing_responses by done. simpl.
  destruct (block_processor b) as [blobs [e'|]]; simpl in *; [| done].
  simplify_eq. destruct e; reflexivity.
Qed.

Lemma worker_processor_exception_witness :
  Common.stream_blocks Sample.stub_config 1000 1005 (Some Cases.choking) ∅
  = ([EvStreamOpen 1000 1005], Raise (ValueError "bad block")).
Proof.
  apply (worker_processor_exception Sample.stub_config 1000 1005 Cases.choking ∅
           [1000; 1001] 1002 [Response 1003; Response 1004] (ValueError "bad block")).
  - vm_compute. reflexivity.
  - repeat constructor.
  - reflexivity.
Defined.

(** X13.  Whenever the worker of [common.py] logs a failed block number,
    it raises [BlockStreamException] with its own bounds and that number,
    and the number lies between [start] and [start] plus the number of
    responses of the stream. *)
Theorem failed_block_number_bounds {Block Blob : Type}
    (stub_config : @Common.StubConfig Block) (start end_ : Z)
    (block_processor : option (Block -> generated Blob))
    (kwargs : gmap string Common.pyval) (n : Z) :
  EvLog (LogBlockFailed n)
    ∈ trace (Common.stream_blocks stub_config start end_ block_processor kwargs) ->
  outcome (Common.stream_blocks stub_config start end_ block_processor kwargs)
  = Raise (BlockStreamException start end_ n) /\
  start <= n <= start + Z.of_nat (length (Common.Blocks stub_config
                                    (Common.request_parameters start end_
                                       (Common.REQUEST_PARAMETERS stub_config) kwargs))).
Proof.
  unfold Common.stream_blocks, trace, outcome. simpl.
  set (responses := Common.Blocks _ _).
  destruct block_processor as [p|].
  - pose proof (consume_parsing_counter p responses start []) as Hc.
    destruct (Common.consume_parsing p responses start []) as [cur rows|e cur rows]; simpl.
    + intros H. apply elem_of_cons in H as [H|H]; [done | by apply elem_of_nil in H].
    + unfold Common.except_rpc. destruct e; simpl; intros H;
        apply elem_of_cons in H as [H|H]; try done;
        try (by apply elem_of_nil in H).
      apply elem_of_cons in H as [H|H]; [| by apply elem_of_nil in H].
      simplify_eq. done.
  - pose proof (consume_raw_counter responses start []) as Hc.
    destruct (Common.consume_raw responses start []) as [cur rows|e cur rows]; simpl.
    + intros H. apply elem_of_cons in H as [H|H]; [done | by apply elem_of_nil in H].
    + unfold Common.except_rpc. destruct e; simpl; intros H;
        apply elem_of_cons in H as [H|H]; try done;
        try (by apply elem_of_nil in H).
      apply elem_of_cons in H as [H|H]; [| by apply elem_of_nil in H].
      simplify_eq. done.
Qed.

Lemma failed_block_number_bounds_witness :
  outcome (Common.stream_blocks Sample.failing_stub_config 1000 1100
             (Some Sample.one_per_block) ∅)
  = Raise (BlockStreamException 1000 1100 1050) /\
  1000 <= 1050 <= 1000 + Z.of_nat (length (Common.Blocks Sample.failing_stub_config
                                     (Common.request_parameters 1000 1100
                                        (Common.REQUEST_PARAMETERS
                                           Sample.failing_stub_config) ∅))).
Proof.
  apply (failed_block_number_bounds Sample.failing_stub_config 1000 1100
           (Some Sample.one_per_block) ∅ 1050).
  vm_compute. apply list_elem_of_In. right. left. reflexivity.
Defined.

(** X14.  The request always carries [start_block_num] and
    [stop_block_num]: its keys are those two, the keys of the stub
    configuration and the keyword arguments, and nothing else. *)
Theorem request_parameters_keys (start end_ : Z)
    (REQUEST_PARAMETERS kwargs : gmap string Common.pyval) :
  dom (Common.request_parameters start end_ REQUEST_PARAMETERS kwargs)
  = dom kwargs ∪ dom REQUEST_PARAMETERS
      ∪ {[ "start_block_num"%string; "stop_block_num"%string ]}.
Proof.
  unfold Common.request_parameters, Common.positional_parameters.
  rewrite !dom_union_L, !dom_insert_L, dom_empty_L.
  apply set_eq. intros key.
  rewrite !elem_of_union, !elem_of_singleton, elem_of_empty. tauto.
Qed.

(** ** Loading the block processor *)

Lemma rsplit_dot_None s : rsplit_dot s = None <-> has_dot s = false.
Proof.
  induction s as [|c rest IH]; simpl; [done |].
  destruct (rsplit_dot rest) as [[l r]|].
  - split; [done |]. intros H. apply orb_false_iff in H as [_ H].
    apply IH in H. done.
  - destruct (Ascii.eqb c "."); simpl; [done |]. split; [| done].
    intros _. by apply IH.
Qed.

Lemma rsplit_dot_Some s l r :
  rsplit_dot s = Some (l, r) -> s = l +:+ "." +:+ r /\ has_dot r = false.
Proof.
  revert l. induction s as [|c rest IH]; intros l H; simpl in H; [done |].
  destruct (rsplit_dot rest) as [[l' r']|] eqn:Hrest.
  - simplify_eq. destruct (IH l' eq_refl) as [-> Hr]. done.
  - destruct (Ascii.eqb_spec c "."); [| done]. simplify_eq.
    split; [done |]. by apply rsplit_dot_None.
Qed.

(** X15.  A custom processor name is cut at its last dot: the module is
    [block_processors.] followed by what stands before that dot and the
    function is what follows it; both programs resolve it the same way.
    A name without a dot raises [ValueError] before anything is loaded:
    the script of [main.py] then ends with it, nothing logged, no network
    activity. *)
Theorem processor_path_resolution {Block Blob : Type}
    (env : @MainPy.environment Block)
    (load : string -> string -> result (Signature.candidate Block Blob))
    (args : MainPy.arguments) (pargs : Pyfirehose.arguments) (name : string) :
  MainPy.custom_processor args = Some name ->
  Pyfirehose.custom_processor pargs = Some name ->
  name <> EmptyString ->
  MainPy.block_start args <= MainPy.block_end args ->
  MainPy.processor_path args = Pyfirehose.processor_path pargs /\
  if has_dot name
  then exists module function,
         MainPy.processor_path args = Return (module, function) /\
         module +:+ "." +:+ function = "block_processors." +:+ name /\
         has_dot function = false
  else MainPy.processor_path args = Raise (ValueError "not enough values to unpack") /\
       MainPy.script env load args
       = ([], Raise (ValueError "not enough values to unpack")).
Proof.
  intros Hm Hp Hne Hperiod.
  assert (Htruthy : truthy (Some name) = true) by (by destruct name).
  unfold MainPy.processor_path, Pyfirehose.processor_path, MainPy.script.
  rewrite Hm, Hp, Htruthy. split; [done |].
  destruct (rsplit_dot name) as [[l r]|] eqn:Hsplit.
  - destruct (has_dot name) eqn:Hdot.
    + apply rsplit_dot_Some in Hsplit as [-> Hr].
      eexists _, _. split; [done |]. split; [| done]. reflexivity.
    + apply rsplit_dot_None in Hdot. congruence.
  - pose proof Hsplit as Hdot. apply rsplit_dot_None in Hdot. rewrite Hdot.
    split; [done |].
    assert (Hpath : MainPy.processor_path args
                    = Raise (ValueError "not enough values to unpack")).
    { unfold MainPy.processor_path. by rewrite Hm, Htruthy, Hsplit. }
    rewrite Hpath.
    destruct (Z.ltb_spec (MainPy.block_end args) (MainPy.block_start args)); [lia |].
    reflexivity.
Qed.

Lemma processor_path_resolution_witness :
  MainPy.processor_path (Cases.custom_args "contrib.filters.transfers" true)
  = Pyfirehose.processor_path (Cases.custom_pyfirehose_args "contrib.filters.transfers" true) /\
  exists module function,
    MainPy.processor_path (Cases.custom_args "contrib.filters.transfers" true)
    = Return (module, function) /\
    module +:+ "." +:+ function = "block_processors." +:+ "contrib.filters.transfers" /\
    has_dot function = false.
Proof.
  apply (processor_path_resolution Sample.env Cases.missing
           (Cases.custom_args "contrib.filters.transfers" true)
           (Cases.custom_pyfirehose_args "contrib.filters.transfers" true)
           "contrib.filters.transfers");
    [reflexivity | reflexivity | discriminate | simpl; lia].
Defined.

(** X16.  With [--disable-signature-check] the loaded object is used as
    it is, whatever its signature: nothing is logged about it, the script
    of [main.py] goes on with [run] and [pyfirehose] with the streaming. *)
Theorem disabled_signature_check {Block Blob : Type}
    (env : @MainPy.environment Block)
    (load : string -> string -> result (Signature.candidate Block Blob))
    (args : MainPy.arguments)
    (penv : @Pyfirehose.environment Block Blob) (pargs : Pyfirehose.arguments)
    (c : Signature.candidate Block Blob) (module function : string) :
  MainPy.block_start args <= MainPy.block_end args ->
  MainPy.disable_signature_check args = true ->
  MainPy.processor_path args = Return (module, function) ->
  load module function = Return c ->
  truthy (Pyfirehose.JWT penv) = true ->
  Pyfirehose.start pargs <= Pyfirehose.end_ pargs ->
  Pyfirehose.disable_signature_check pargs = true ->
  Pyfirehose.processor_path pargs = Return (module, function) ->
  Pyfirehose.load penv module function = Return c ->
  MainPy.script env load args
  = MainPy.run env (MainPy.accounts args) (MainPy.block_start args)
      (MainPy.block_end args) (Signature.call c) (MainPy.chain args)
      (MainPy.max_tasks args) (MainPy.custom_include_expr args)
      (MainPy.custom_exclude_expr args) /\
  trace (Pyfirehose.script penv pargs)
  = EvAuthRequest
      :: trace (Pyfirehose.asyncio_main penv (Pyfirehose.start pargs)
                  (Pyfirehose.end_ pargs) (Pyfirehose.chain pargs)
                  (Pyfirehose.custom_include_expr pargs)
                  (Pyfirehose.custom_exclude_expr pargs)).
Proof.
  intros Hperiod Hoff Hpath Hload Hjwt Hperiod' Hoff' Hpath' Hload'.
  assert (Hlt : (MainPy.block_end args <? MainPy.block_start args) = false)
    by (apply Z.ltb_ge; lia).
  assert (Hlt' : (Pyfirehose.end_ pargs <? Pyfirehose.start pargs) = false)
    by (apply Z.ltb_ge; lia).
  split.
  - unfold MainPy.script, MainPy.load_processor.
    rewrite Hlt, Hpath. simpl. rewrite Hload, Hoff. simpl.
    by destruct (MainPy.run _ _ _ _ _ _ _ _ _) as [t r].
  - unfold Pyfirehose.script, Pyfirehose.get_auth_token, Pyfirehose.main,
      Pyfirehose.load_processor.
    rewrite Hjwt, Hlt', Hpath'. simpl. rewrite Hload', Hoff'. simpl.
    destruct (Pyfirehose.asyncio_main _ _ _ _ _ _) as [t [raw|e]]; simpl; [| done].
    by rewrite app_nil_r.
Qed.

Lemma disabled_signature_check_witness :
  MainPy.script Sample.env (fun _ _ => Return Sample.eager)
    (Cases.custom_args "mine.processor" false)
  = MainPy.run Sample.env ["alice"%string] 100 110 Sample.one_per_block "eos" 2 None None /\
  trace (Pyfirehose.script (Cases.pyfirehose_env (Some "token"%string)
                              (fun _ _ => Return Sample.eager))
           (Cases.custom_pyfirehose_args "mine.processor" false))
  = [EvAuthRequest; EvChannelOpen; EvStreamOpen 100 110].
Proof.
  apply (disabled_signature_check Sample.env (fun _ _ => Return Sample.eager)
           (Cases.custom_args "mine.processor" false)
           (Cases.pyfirehose_env (Some "token"%string) (fun _ _ => Return Sample.eager))
           (Cases.custom_pyfirehose_args "mine.processor" false)
           Sample.eager "block_processors.mine" "processor");
    try reflexivity; simpl; lia.
Defined.

(** X17.  When the block processor cannot be loaded, the script of
    [main.py] logs a critical line and exits with status 1 for every
    exception that [except Exception] catches, and lets a [SystemExit]
    through; in both cases before any network activity. *)
Theorem main_py_load_failure {Block Blob : Type}
    (env : @MainPy.environment Block)
    (load : string -> string -> result (Signature.candidate Block Blob))
    (args : MainPy.arguments) (module function : string) (e : exn) :
  MainPy.block_start args <= MainPy.block_end args ->
  MainPy.processor_path args = Return (module, function) ->
  load module function = Raise e ->
  MainPy.script (Blob:=Blob) env load args
  = if is_Exception e then ([EvLog LogLoadFailed], Raise (SystemExit 1))
    else ([], Raise e).
Proof.
  intros Hperiod Hpath Hload.
  unfold MainPy.script, MainPy.load_processor.
  destruct (Z.ltb_spec (MainPy.block_end args) (MainPy.block_start args)); [lia |].
  rewrite Hpath. simpl. rewrite Hload. simpl.
  destruct (is_Exception e); reflexivity.
Qed.

Lemma main_py_load_failure_witness :
  MainPy.script Sample.env Cases.missing (Sample.args 100 110)
  = ([EvLog LogLoadFailed], Raise (SystemExit 1)).
Proof.
  apply (main_py_load_failure Sample.env Cases.missing (Sample.args 100 110)
           "block_processors.default" "eos_block_processor"
           (AttributeError "module has no such attribute"));
    [simpl; lia | reflexivity | reflexivity].
Defined.

(** X18.  When the block processor cannot be loaded, [pyfirehose] raises
    the exception of the import again: after a critical log line for an
    [AttributeError] or a [TypeError], without any log line for another
    exception; the token has been queried, no channel is opened. *)
Theorem pyfirehose_load_failure {Block Blob : Type}
    (env : @Pyfirehose.environment Block Blob) (args : Pyfirehose.arguments)
    (module function : string) (e : exn) :
  truthy (Pyfirehose.JWT env) = true ->
  Pyfirehose.start args <= Pyfirehose.end_ args ->
  Pyfirehose.processor_path args = Return (module, function) ->
  Pyfirehose.load env module function = Raise e ->
  Pyfirehose.script env args
  = (EvAuthRequest
       :: match e with
          | AttributeError _ | TypeError _ => [EvLog LogLoadFailed]
          | _ => []
          end,
     Raise e).
Proof.
  intros Hjwt Hperiod Hpath Hload.
  unfold Pyfirehose.script, Pyfirehose.get_auth_token, Pyfirehose.main,
    Pyfirehose.load_processor.
  rewrite Hjwt. simpl.
  destruct (Z.ltb_spec (Pyfirehose.end_ args) (Pyfirehose.start args)); [lia |].
  rewrite Hpath. simpl. rewrite Hload. simpl.
  destruct e; reflexivity.
Qed.

Lemma pyfirehose_load_failure_witness :
  Pyfirehose.script (Cases.pyfirehose_env (Some "token"%string) Cases.missing)
    (Sample.pyfirehose_args 100 110)
  = ([EvAuthRequest; EvLog LogLoadFailed],
     Raise (AttributeError "module has no such attribute")).
Proof.
  apply (pyfirehose_load_failure
           (Cases.pyfirehose_env (Some "token"%string) Cases.missing)
           (Sample.pyfirehose_args 100 110)
           "block_processors.default" "eos_block_processor"
           (AttributeError "module has no such attribute"));
    [reflexivity | simpl; lia | reflexivity | reflexivity].
Defined.

(** X19.  The signature check lets a candidate through in silence
    exactly when every parameter and the return value are annotated, one
    parameter is annotated with the block type, the return annotation is
    [Dict] and the candidate is a generator function. *)
Theorem check_accepts_iff {Block Blob : Type} (c : Signature.candidate Block Blob) :
  Signature.check (Blob:=Blob) c = ([], Return tt) <->
  ~ Signature.partially_annotated (Signature.signature_of c) /\
  In Signature.BlockType (Signature.parameters (Signature.signature_of c)) /\
  Signature.return_annotation (Signature.signature_of c) = Signature.DictType /\
  Signature.isgeneratorfunction c = true.
Proof.
  unfold Signature.check, emit, io_raise, io_ret.
  destruct (Signature.not_checkable _) eqn:Hn.
  - apply not_checkable_iff in Hn. split; [discriminate | tauto].
  - assert (Hfull : ~ Signature.partially_annotated (Signature.signature_of c)).
    { intros H. apply not_checkable_iff in H. congruence. }
    destruct (Signature.incompatible c) eqn:Hi.
    + apply incompatible_iff in Hi. split; [discriminate |].
      intros (_ & Hb & Hr & Hg). destruct Hi as [Hi | [Hi | Hi]]; congruence.
    + split; [| done]. intros _. split; [done |].
      unfold Signature.incompatible in Hi.
      apply orb_false_iff in Hi as [Hi Hg].
      apply orb_false_iff in Hi as [Hb Hr].
      apply negb_false_iff in Hb, Hr, Hg.
      apply existsb_annotation' in Hb. apply annotation_eqb_eq in Hr. done.
Qed.

(** X20.  A candidate without parameters whose return value is annotated
    is never given the warning: it is refused with the [TypeError], as no
    parameter has the block type. *)
Theorem nullary_candidate_refused {Block Blob : Type}
    (c : Signature.candidate Block Blob) :
  Signature.parameters (Signature.signature_of c) = [] ->
  Signature.return_annotation (Signature.signature_of c) <> Signature.Unannotated ->
  Signature.check (Blob:=Blob) c = ([], Raise (TypeError Signature.incompatible_msg)).
Proof.
  intros Hp Hr. apply check_incompatible. split.
  - intros [H | H]; [by apply Hr |]. rewrite Hp in H. destruct H.
  - left. rewrite Hp. intros H. destruct H.
Qed.

Lemma nullary_candidate_refused_witness :
  Signature.check Cases.nullary = ([], Raise (TypeError Signature.incompatible_msg)).
Proof.
  apply (nullary_candidate_refused Cases.nullary); [reflexivity | discriminate].
Defined.

(** ** [main()] of [pyfirehose] *)

Lemma io_bind_always_raises {Blob A B : Type} (m : io Blob A) (k : A -> io Blob B) :
  (forall a, exists e, outcome (k a) = Raise e) ->
  exists e, outcome (io_bind m k) = Raise e.
Proof.
  intros Hk. destruct m as [t [a|e]]; simpl.
  - destruct (Hk a) as [e He]. destruct (k a) as [t' r]. simpl in *. by exists e.
  - by exists e.
Qed.

(** X21.  [main()] returns only to refuse: it returns (the value 1)
    exactly when no token was obtained or the period is reversed; in
    every other case it ends by an exception, as the call of
    [process_blocks] with [out_file] cannot succeed. *)
Theorem pyfirehose_main_returns_only_refusals {Block Blob : Type}
    (env : @Pyfirehose.environment Block Blob) (args : Pyfirehose.arguments) :
  (forall v, outcome (Pyfirehose.main env args) = Return v -> v = 1) /\
  ((exists v, outcome (Pyfirehose.main env args) = Return v) <->
   truthy (Pyfirehose.JWT env) = false \/ Pyfirehose.end_ args < Pyfirehose.start args).
Proof.
  unfold Pyfirehose.main.
  destruct (truthy (Pyfirehose.JWT env)) eqn:Hjwt; cbn [negb].
  2: { split; [intros v H; by simplify_eq/= |]. split; [by left | by exists 1]. }
  destruct (Z.ltb_spec (Pyfirehose.end_ args) (Pyfirehose.start args)) as [Hlt|Hge].
  { split; [intros v H; by simplify_eq/= |]. split; [by right | by exists 1]. }
  assert (Hraise : exists e,
    outcome (path <- lift (Pyfirehose.processor_path args);;
             block_processor <- Pyfirehose.reraising
               (Pyfirehose.load_processor env args (fst path) (snd path));;
             raw_blocks <- Pyfirehose.asyncio_main env (Pyfirehose.start args)
               (Pyfirehose.end_ args) (Pyfirehose.chain args)
               (Pyfirehose.custom_include_expr args)
               (Pyfirehose.custom_exclude_expr args);;
             io_raise (A:=Z)
               (TypeError "process_blocks() got an unexpected keyword argument 'out_file'"))%io
    = Raise e).
  { apply io_bind_always_raises. intros path.
    apply io_bind_always_raises. intros block_processor.
    apply io_bind_always_raises. intros raw. by eexists. }
  destruct Hraise as [e He]. rewrite He.
  split; [done |]. split; [intros [v Hv]; done | intros [? | ?]; [done | lia]].
Qed.

(** X22.  When a token was obtained, the period is valid, the block
    processor is loaded and passes the signature check and the streaming
    returns its raw blocks, [main()] ends with the [TypeError] of the call
    of [process_blocks]: the blocks streamed are never parsed. *)
Theorem pyfirehose_main_fails_after_streaming {Block Blob : Type}
    (env : @Pyfirehose.environment Block Blob) (args : Pyfirehose.arguments)
    (c : Signature.candidate Block Blob)
    (checked streamed : list (event Blob)) (raw_blocks : list Block) :
  pyfirehose_checks env args c ->
  Signature.check c = (checked, Return tt) ->
  Pyfirehose.asyncio_main env (Pyfirehose.start args) (Pyfirehose.end_ args)
    (Pyfirehose.chain args) (Pyfirehose.custom_include_expr args)
    (Pyfirehose.custom_exclude_expr args)
  = (streamed, Return raw_blocks) ->
  Pyfirehose.main env args
  = (checked ++ streamed,
     Raise (TypeError "process_blocks() got an unexpected keyword argument 'out_file'")).
Proof.
  intros (Hjwt & Hperiod & Hcheck & m & f & Hpath & Hload) Hc Hstream.
  unfold Pyfirehose.main, Pyfirehose.load_processor.
  rewrite Hjwt. simpl.
  destruct (Z.ltb_spec (Pyfirehose.end_ args) (Pyfirehose.start args)); [lia |].
  rewrite Hpath. simpl. rewrite Hload, Hcheck. simpl. rewrite Hc. simpl.
  rewrite Hstream. simpl. by rewrite !app_nil_r.
Qed.

Lemma pyfirehose_main_fails_after_streaming_witness :
  Pyfirehose.main (Sample.pyfirehose_env Cases.compatible) (Sample.pyfirehose_args 100 110)
  = ([] ++ [EvChannelOpen; EvStreamOpen 100 110],
     Raise (TypeError "process_blocks() got an unexpected keyword argument 'out_file'")).
Proof.
  apply (pyfirehose_main_fails_after_streaming
           (Sample.pyfirehose_env Cases.compatible) (Sample.pyfirehose_args 100 110)
           Cases.compatible [] [EvChannelOpen; EvStreamOpen 100 110]
           (Sample.blocks_between 100 110)).
  - split; [reflexivity |]. split; [simpl; lia |]. split; [reflexivity |].
    eexists _, _. split; reflexivity.
  - reflexivity.
  - reflexivity.
Defined.


